(** * The API access layer of the frontend: [src/frontend/js/app/api.js]

    A shallow embedding of the request dispatcher [fetch], of the raw upload
    [FileUpload] and of the resource clients exported by the module, with the
    properties the specification states about them.

    Layout: the JavaScript values and built-ins the module relies on, the
    token store it imports, the dispatcher, the resource clients, and then
    the theorems. *)

From Stdlib Require Import ZArith String Ascii List DecimalString DecimalPos Lia.
From stdpp Require Import base strings gmap list.

Set Warnings "-register-all".
Local Open Scope Z_scope.

(** ** JavaScript values

    Values are the JSON trees the API exchanges, together with [undefined],
    [NaN], the infinities and the host object [FormData].  Strings are
    sequences of UTF-8 bytes.  Numbers are the integers the API uses
    (identifiers, status codes, counts); fractions are not represented.  An
    object is an association list in insertion order, the order
    [JSON.stringify] follows for the names that are not array indices. *)

Inductive JsVal : Type :=
  | JUndefined
  | JNull
  | JBool (b : bool)
  | JNum (n : Z)
  | JNaN
  | JStr (s : string)
  | JArr (items : list JsVal)
  | JObj (props : list (string * JsVal))
  | JFormData (entries : list (string * string))
  | JInfinity (negative : bool).

(** Exceptions and error objects.  [ApiError] is the constructor of the
    source (lines 13-20); [Error] and [TypeError] are the built-in ones. *)
Inductive JsError : Type :=
  | ApiError (message : string) (debug : JsVal) (code : JsVal)
  | Error (message : string)
  | TypeError (message : string).

(** A computation that may throw. *)
Inductive Result (A : Type) : Type :=
  | Ok (a : A)
  | Throw (e : JsError).
Arguments Ok {A} a.
Arguments Throw {A} e.

#[global] Instance result_ret : MRet Result := fun A a => Ok a.
#[global] Instance result_bind : MBind Result := fun A B k r =>
  match r with
  | Ok a => k a
  | Throw e => Throw e
  end.

(** *** Characters and strings *)

Definition dquote : string := String (ascii_of_nat 34) EmptyString.
Definition backslash : string := String (ascii_of_nat 92) EmptyString.

Definition char_in (lo hi : nat) (c : ascii) : bool :=
  let n := nat_of_ascii c in ((lo <=? n) && (n <=? hi))%nat.

Definition is_digit : ascii -> bool := char_in 48 57.
Definition is_upper : ascii -> bool := char_in 65 90.
Definition is_lower : ascii -> bool := char_in 97 122.

(** The white space [parseInt] strips: the white space and the line
    terminators of the language, in UTF-8.  [is_space] holds of the
    one-byte ones (tab, line feed, vertical tab, form feed, carriage return,
    space); [is_space2] of the no-break space U+00A0; [is_space3] of U+1680,
    U+2000 to U+200A, U+2028, U+2029, U+202F, U+205F, U+3000 and U+FEFF. *)
Definition is_space (c : ascii) : bool :=
  let n := nat_of_ascii c in ((n =? 32) || char_in 9 13 c)%nat.

Definition is_space2 (c1 c2 : ascii) : bool :=
  ((nat_of_ascii c1 =? 194) && (nat_of_ascii c2 =? 160))%nat.

Definition is_space3 (c1 c2 c3 : ascii) : bool :=
  let n1 := nat_of_ascii c1 in
  let n2 := nat_of_ascii c2 in
  let n3 := nat_of_ascii c3 in
  (((n1 =? 225) && (n2 =? 154) && (n3 =? 128))
   || ((n1 =? 226) && (n2 =? 128)
       && (char_in 128 138 c3 || (n3 =? 168) || (n3 =? 169) || (n3 =? 175)))
   || ((n1 =? 226) && (n2 =? 129) && (n3 =? 159))
   || ((n1 =? 227) && (n2 =? 128) && (n3 =? 128))
   || ((n1 =? 239) && (n2 =? 187) && (n3 =? 191)))%nat.

Definition to_lower_char (c : ascii) : ascii :=
  if is_upper c then ascii_of_nat (nat_of_ascii c + 32) else c.

Fixpoint to_lower (s : string) : string :=
  match s with
  | EmptyString => EmptyString
  | String c s' => String (to_lower_char c) (to_lower s')
  end.

(** [includes needle hay]: [needle] occurs in [hay]. *)
Fixpoint includes (needle hay : string) : bool :=
  if String.prefix needle hay then true
  else match hay with
       | EmptyString => false
       | String _ hay' => includes needle hay'
       end.

(** [Array.prototype.join] on strings. *)
Fixpoint join (sep : string) (l : list string) : string :=
  match l with
  | [] => EmptyString
  | [x] => x
  | x :: l' => x +:+ sep +:+ join sep l'
  end.

Definition hex_digit (upper : bool) (n : nat) : ascii :=
  if (n <? 10)%nat then ascii_of_nat (48 + n)
  else ascii_of_nat ((if upper then 55 else 87) + n).

Definition hex2 (upper : bool) (c : ascii) : string :=
  let n := nat_of_ascii c in
  String (hex_digit upper (n / 16)) (String (hex_digit upper (n mod 16)) EmptyString).

(** The decimal numeral of an integer, which is how the language prints the
    integers below 10^21. *)
Definition string_of_Z (n : Z) : string := NilZero.string_of_int (Z.to_int n).

(** *** Operators of the language *)

(** [typeof v] *)
Definition typeof (v : JsVal) : string :=
  match v with
  | JUndefined => "undefined"
  | JNull => "object"
  | JBool _ => "boolean"
  | JNum _ | JNaN | JInfinity _ => "number"
  | JStr _ => "string"
  | JArr _ | JObj _ | JFormData _ => "object"
  end.

(** Truthiness, as tested by [if], [?:], [&&] and [||]. *)
Definition truthy (v : JsVal) : bool :=
  match v with
  | JUndefined | JNull | JNaN => false
  | JBool b => b
  | JNum n => negb (n =? 0)
  | JStr s => negb (String.eqb s EmptyString)
  | JArr _ | JObj _ | JFormData _ | JInfinity _ => true
  end.

(** [a || b] *)
Definition js_or (a b : JsVal) : JsVal := if truthy a then a else b.

(** [v !== null] *)
Definition not_null (v : JsVal) : bool :=
  match v with JNull => false | _ => true end.

(** [String(v)], the conversion string concatenation applies. *)
Fixpoint to_string (v : JsVal) : string :=
  match v with
  | JUndefined => "undefined"
  | JNull => "null"
  | JBool true => "true"
  | JBool false => "false"
  | JNum n => string_of_Z n
  | JNaN => "NaN"
  | JStr s => s
  | JArr items =>
      join "," (map (fun e => match e with
                              | JUndefined | JNull => EmptyString
                              | _ => to_string e
                              end) items)
  | JObj _ => "[object Object]"
  | JFormData _ => "[object FormData]"
  | JInfinity false => "Infinity"
  | JInfinity true => "-Infinity"
  end.

(** ['...' + v] *)
Definition concat (s : string) (v : JsVal) : string := s +:+ to_string v.

(** Own properties of an object: the first binding of the name. *)
Fixpoint lookup_prop (name : string) (props : list (string * JsVal)) : option JsVal :=
  match props with
  | [] => None
  | (k, v) :: props' => if String.eqb k name then Some v else lookup_prop name props'
  end.

(** [delete o.name] on the properties of [o]. *)
Definition delete_prop (name : string) (props : list (string * JsVal))
  : list (string * JsVal) :=
  List.filter (fun kv => negb (String.eqb (fst kv) name)) props.

(** The array index a property name denotes, if any. *)
Definition array_index (name : string) : option nat :=
  match name with
  | EmptyString => None
  | _ => if forallb is_digit (list_ascii_of_string name)
         then let n := Z.of_nat (fold_left (fun acc c => 10 * acc + (nat_of_ascii c - 48))%nat
                                           (list_ascii_of_string name) 0%nat) in
              if String.eqb (string_of_Z n) name then Some (Z.to_nat n) else None
         else None
  end.

(** [v.name].  Reading a property of [undefined] or [null] throws.  The
    properties inherited from the prototypes and the [length] of a string are
    not represented: api.js reads none of them. *)
Definition js_get (v : JsVal) (name : string) : Result JsVal :=
  match v with
  | JUndefined | JNull =>
      Throw (TypeError ("Cannot read property '" +:+ name +:+ "' of " +:+ to_string v))
  | JObj props => Ok (default JUndefined (lookup_prop name props))
  | JArr items =>
      if String.eqb name "length" then Ok (JNum (Z.of_nat (length items)))
      else match array_index name with
           | Some i => Ok (nth i items JUndefined)
           | None => Ok JUndefined
           end
  | JStr _ | JBool _ | JNum _ | JNaN | JFormData _ | JInfinity _ => Ok JUndefined
  end.

(** *** Built-in functions *)

(** The quoted form of a string in JSON text. *)
Definition json_escape (c : ascii) : string :=
  let n := nat_of_ascii c in
  if (n =? 34)%nat then backslash +:+ dquote
  else if (n =? 92)%nat then backslash +:+ backslash
  else if (n =? 8)%nat then backslash +:+ "b"
  else if (n =? 9)%nat then backslash +:+ "t"
  else if (n =? 10)%nat then backslash +:+ "n"
  else if (n =? 12)%nat then backslash +:+ "f"
  else if (n =? 13)%nat then backslash +:+ "r"
  else if (n <? 32)%nat then backslash +:+ "u00" +:+ hex2 false c
  else String c EmptyString.

Fixpoint json_escape_string (s : string) : string :=
  match s with
  | EmptyString => EmptyString
  | String c s' => json_escape c +:+ json_escape_string s'
  end.

Definition json_quote (s : string) : string :=
  dquote +:+ json_escape_string s +:+ dquote.

(** The text [JSON.stringify] produces, [None] where it produces
    [undefined]. *)
Fixpoint json_text (v : JsVal) : option string :=
  match v with
  | JUndefined => None
  | JNull | JNaN | JInfinity _ => Some "null"
  | JBool true => Some "true"
  | JBool false => Some "false"
  | JNum n => Some (string_of_Z n)
  | JStr s => Some (json_quote s)
  | JArr items =>
      Some ("[" +:+ join "," (map (fun e => default "null" (json_text e)) items) +:+ "]")
  | JObj props =>
      Some ("{" +:+ join ","
              (omap (fun kv => match json_text (snd kv) with
                               | Some t => Some (json_quote (fst kv) +:+ ":" +:+ t)
                               | None => None
                               end) props) +:+ "}")
  | JFormData _ => Some "{}"
  end.

(** [JSON.stringify(v)] *)
Definition JSON_stringify (v : JsVal) : JsVal :=
  match json_text v with
  | Some t => JStr t
  | None => JUndefined
  end.

(** [encodeURIComponent(s)]: every byte is escaped as [%XX] except the
    letters, the digits and [- _ . ! ~ * ' ( )]. *)
Definition uri_unreserved (c : ascii) : bool :=
  is_upper c || is_lower c || is_digit c
  || existsb (Ascii.eqb c) (list_ascii_of_string "-_.!~*'()").

Fixpoint encodeURIComponent (s : string) : string :=
  match s with
  | EmptyString => EmptyString
  | String c s' =>
      (if uri_unreserved c then String c EmptyString else "%" +:+ hex2 true c)
      +:+ encodeURIComponent s'
  end.

(** The number value of an integer: the integer itself below 2^53 in
    absolute value; beyond, the nearest integer with 53 significant bits,
    ties going to the even one; and an infinity from 2^1024 on. *)
Definition round_to_double (z : Z) : JsVal :=
  let a := Z.abs z in
  if a <? 2 ^ 53 then JNum z
  else
    let e := Z.log2 a - 52 in
    let q := a / 2 ^ e in
    let r := a mod 2 ^ e in
    let half := 2 ^ (e - 1) in
    let q' := if r <? half then q
              else if half <? r then q + 1
              else if Z.even q then q else q + 1 in
    let v := q' * 2 ^ e in
    if v <? 2 ^ 1024 then JNum (Z.sgn z * v) else JInfinity (z <? 0).

(** [parseInt(v, 10)]: the argument is converted to a string, leading white
    space and one sign are dropped, and the longest prefix of decimal digits
    is read; the result is the number value of that numeral (the engines read
    every digit), and [NaN] when there is no digit. *)
Fixpoint skip_spaces (s : string) : string :=
  match s with
  | EmptyString => EmptyString
  | String c1 s1 =>
      if is_space c1 then skip_spaces s1
      else
        match s1 with
        | EmptyString => s
        | String c2 s2 =>
            if is_space2 c1 c2 then skip_spaces s2
            else
              match s2 with
              | EmptyString => s
              | String c3 s3 =>
                  if is_space3 c1 c2 c3 then skip_spaces s3 else s
              end
        end
  end.

Fixpoint leading_digits (s : string) : list Z :=
  match s with
  | String c s' =>
      if is_digit c then (Z.of_nat (nat_of_ascii c) - 48) :: leading_digits s' else []
  | EmptyString => []
  end.

Definition digits_value (ds : list Z) : Z :=
  fold_left (fun acc d => 10 * acc + d) ds 0.

Definition parseInt_10 (v : JsVal) : JsVal :=
  let s := skip_spaces (to_string v) in
  let '(sign, rest) :=
    match s with
    | String c s' =>
        if Ascii.eqb c "-" then (-1, s')
        else if Ascii.eqb c "+" then (1, s')
        else (1, s)
    | EmptyString => (1, s)
    end in
  match leading_digits rest with
  | [] => JNaN
  | ds => round_to_double (sign * digits_value ds)
  end.

(** [s.match(/json/im)] as a condition: the text [json] occurs in [s], in
    any letter case. *)
Definition match_json_im (s : string) : bool :=
  includes "json" (to_lower s).

(** ** The token store

    [require('./tokens')]: api.js reads the top token and lets [login] and
    [refresh] add, overwrite and clear tokens.  The module is an interface
    here; a token is an object whose field [t] is the bearer value, and
    [getTopToken] answers [null] when the store is empty. *)

Class TokenStore (S : Type) : Type := {
  getTopToken : S -> JsVal;
  addToken : JsVal -> S -> S;
  setCurrentToken : JsVal -> S -> S;
  clearTokens : S -> S
}.

(** Modelled from the spec: the token store of [tokens.js], which is not
    among the sources.  The specification gives its operations
    ([getCurrentToken() -> Token | null], [setCurrentToken], [addToken],
    [clearAllTokens]) and calls the current token the topmost one: a stack of
    bearer values, the current one first. *)
Definition TokenStack : Type := list JsVal.

#[global] Instance token_stack : TokenStore TokenStack := {|
  getTopToken s := match s with
                   | [] => JNull
                   | t :: _ => JObj [("t"%string, t)]
                   end;
  addToken tok s := tok :: s;
  setCurrentToken tok s := match s with
                           | [] => []
                           | _ :: s' => tok :: s'
                           end;
  clearTokens _ := []
|}.

(** ** Requests, responses and promises *)

(** The settings object handed to [$.ajax], with the request headers
    [beforeSend] sets. *)
Record AjaxSettings : Type := {
  url : string;
  data : JsVal;
  type : string;
  dataType : string;
  contentType : JsVal;
  processData : JsVal;
  crossDomain : bool;
  timeout : JsVal;
  withCredentials : bool;
  requestHeaders : list (string * string)
}.

(** The response object of jQuery.  [responseHeaders name] is what
    [getResponseHeader(name)] returns, [None] standing for [null].
    [responseJSON] is the decoded body, [undefined] when there is none. *)
Record JqXHR : Type := {
  responseHeaders : string -> option string;
  responseText : JsVal;
  responseJSON : JsVal
}.

Definition getResponseHeader (response : JqXHR) (name : string) : JsVal :=
  from_option JStr JNull (responseHeaders response name).

(** How jQuery completes a request: it calls [success] or [error]. *)
Inductive AjaxReply : Type :=
  | ReplySuccess (data : JsVal) (textStatus : string) (response : JqXHR)
  | ReplyError (xhr : JqXHR) (textStatus : string) (error_thrown : JsVal).

(** A request made with [XMLHttpRequest], and the states of the object its
    [readystatechange] events show. *)
Record XhrRequest : Type := {
  xhr_method : string;
  xhr_url : string;
  xhr_mimeType : string;
  xhr_headers : list (string * string);
  xhr_body : JsVal
}.

Record Xhr : Type := {
  readyState : Z;
  xhr_status : Z;
  xhr_responseText : string;
  xhr_responseHeaders : string -> option string
}.

Definition DONE : Z := 4.

(** The back end and the network: the reply to each request. *)
Class Backend : Type := {
  ajax_reply : AjaxSettings -> AjaxReply;
  xhr_events : XhrRequest -> list Xhr
}.

(** What [resolve] was called with: a plain value, or the response object of
    jQuery.  The latter is a thenable: the promise follows it and is
    fulfilled with the value jQuery resolved it with, the decoded body, which
    jQuery also stores in [responseJSON]. *)
Inductive Resolution : Type :=
  | RValue (v : JsVal)
  | RResponse (response : JqXHR).

Definition fulfilled_value (r : Resolution) : JsVal :=
  match r with
  | RValue v => v
  | RResponse response => responseJSON response
  end.

(** The response object as a value a caller could hold: an object with the
    properties of the response that are data, [responseText] and
    [responseJSON]. *)
Definition response_value (response : JqXHR) : JsVal :=
  JObj [("responseText"%string, responseText response);
        ("responseJSON"%string, responseJSON response)].

(** The state a promise ends in.  [Uncaught e]: a callback of the request
    threw [e] outside the promise, so neither [resolve] nor [reject] is ever
    called and the promise stays pending. *)
Inductive Promise : Type :=
  | Resolved (r : Resolution)
  | Rejected (e : JsError)
  | Pending
  | Uncaught (e : JsError).

(** [p.then(cb)], the callback running on the state [S] it may change. *)
Definition promise_then {S : Type} (p : Promise)
    (cb : JsVal -> S -> S * Result JsVal) (s : S) : S * Promise :=
  match p with
  | Resolved r =>
      let '(s', out) := cb (fulfilled_value r) s in
      (s', match out with
           | Ok v => Resolved (RValue v)
           | Throw e => Rejected e
           end)
  | Rejected e => (s, Rejected e)
  | Pending => (s, Pending)
  | Uncaught e => (s, Uncaught e)
  end.

(** A call of the dispatcher: the request it sent, if any, and its promise. *)
Record Call : Type := {
  sent : option AjaxSettings;
  promise : Promise
}.

(** A call of the raw upload. *)
Record UploadCall : Type := {
  upload_sent : option XhrRequest;
  upload_promise : Promise
}.

(** Objects the callers hold are cells of a heap: a function that receives
    an object receives its location, and sees and changes the same cell. *)
Definition loc : Type := positive.
Abbreviation Heap := (gmap loc JsVal).

Definition deref (h : Heap) (l : loc) : JsVal := default JUndefined (h !! l).

(** [delete o.name] *)
Definition js_delete (o : JsVal) (name : string) : JsVal :=
  match o with
  | JObj props => JObj (delete_prop name props)
  | _ => o
  end.

(** ** The dispatcher (lines 38-95) *)

(** [new ApiError(message, debug, code)]: [Error.call(this, message)] turns
    the message into a string, and leaves it empty when none is given. *)
Definition new_ApiError (message debug code : JsVal) : JsError :=
  ApiError (match message with
            | JUndefined => EmptyString
            | _ => to_string message
            end) debug code.

(** The [success] callback (lines 67-81). *)
Definition success (data : JsVal) (textStatus : string) (response : JqXHR) : Promise :=
  let total := getResponseHeader response "X-Dataset-Total" in
  if not_null total then
    Resolved (RValue (JObj [
      ("data"%string, data);
      ("pagination"%string, JObj [
         ("total"%string, parseInt_10 total);
         ("offset"%string, parseInt_10 (getResponseHeader response "X-Dataset-Offset"));
         ("limit"%string, parseInt_10 (getResponseHeader response "X-Dataset-Limit"))])]))
  else
    Resolved (RResponse response).

(** The message and the code the [error] callback settles on (lines 84-89);
    the reads of [.error] and [.message] throw on [null]. *)
Definition error_message_code (xhr : JqXHR) (error_thrown : JsVal)
  : Result (JsVal * JsVal) :=
  let code := JNum 400 in
  if negb (String.eqb (typeof (responseJSON xhr)) "undefined") then
    e ← js_get (responseJSON xhr) "error";
    if negb (String.eqb (typeof e) "undefined") then
      m ← js_get e "message";
      if negb (String.eqb (typeof m) "undefined") then
        c ← js_get e "code";
        mret (m, js_or c (JNum 500))
      else mret (error_thrown, code)
    else mret (error_thrown, code)
  else mret (error_thrown, code).

(** The [error] callback (lines 83-92). *)
Definition error (xhr : JqXHR) (textStatus : string) (error_thrown : JsVal) : Promise :=
  match error_message_code xhr error_thrown with
  | Ok (message, code) => Rejected (new_ApiError message (responseText xhr) code)
  | Throw e => Uncaught e
  end.

(** ['Bearer ' + (token ? token.t : null)] (lines 64 and 151). *)
Definition bearer (token : JsVal) : Result string :=
  if truthy token then t ← js_get token "t"; mret (concat "Bearer " t)
  else mret (concat "Bearer " JNull).

Section Dispatcher.
Context {S : Type} {store : TokenStore S} {backend : Backend}.

(** The settings [fetch] builds for [$.ajax] (lines 39-65). *)
Definition fetch_settings (s : S) (verb path : string) (data options : JsVal)
  : Result AjaxSettings :=
  let options := js_or options (JObj []) in
  let api_url := "/api/"%string in
  let url := api_url +:+ path in
  let token := getTopToken s in
  opt_contentType ← js_get options "contentType";
  json ← (if String.eqb (typeof opt_contentType) "undefined" then mret true
          else match opt_contentType with
               | JStr c => mret (match_json_im c)
               | _ => Throw (TypeError "options.contentType.match is not a function")
               end);
  let data := if json && String.eqb (typeof data) "object"
              then JSON_stringify data else data in
  opt_processData ← js_get options "processData";
  opt_timeout ← js_get options "timeout";
  authorization ← bearer token;
  mret {|
    url := url;
    data := if String.eqb (typeof data) "object" then JSON_stringify data else data;
    type := verb;
    dataType := "json";
    contentType := js_or opt_contentType (JStr "application/json; charset=UTF-8");
    processData := js_or opt_processData (JBool true);
    crossDomain := true;
    timeout := if truthy opt_timeout then opt_timeout else JNum 15000;
    withCredentials := true;
    requestHeaders := [("Authorization"%string, authorization)]
  |}.

(** [fetch(verb, path, data, options)] *)
Definition fetch (s : S) (verb path : string) (data options : JsVal) : Call :=
  match fetch_settings s verb path data options with
  | Throw e => {| sent := None; promise := Rejected e |}
  | Ok settings =>
      {| sent := Some settings;
         promise := match ajax_reply settings with
                    | ReplySuccess d ts response => success d ts response
                    | ReplyError xhr ts error_thrown => error xhr ts error_thrown
                    end |}
  end.

(** [_.forEach(expand, f)] visits the elements of an array, and of an object
    its indexed properties when it has a [length], else its values.
    [makeExpansionString] is only called on values whose [typeof] is
    [object]. *)
Definition each_value (v : JsVal) : list JsVal :=
  match v with
  | JArr items => items
  | JObj props =>
      match lookup_prop "length" props with
      | Some (JNum n) =>
          if 0 <=? n
          then map (fun i => default JUndefined
                               (lookup_prop (string_of_Z (Z.of_nat i)) props))
                   (seq 0 (Z.to_nat n))
          else map snd props
      | _ => map snd props
      end
  | _ => []
  end.

(** [makeExpansionString(expand)] (lines 102-109) *)
Definition makeExpansionString (expand : JsVal) : string :=
  let items := map (fun exp => encodeURIComponent (to_string exp)) (each_value expand) in
  join "," items.

(** [getAllObjects(path, expand, query)] (lines 117-129) *)
Definition getAllObjects (s : S) (path : string) (expand query : JsVal) : Result Call :=
  let params : list string := [] in
  has_expand ← (if String.eqb (typeof expand) "object" && not_null expand
                then len ← js_get expand "length"; Ok (truthy len)
                else Ok false);
  let params := if (has_expand : bool)
                then params ++ ["expand=" +:+ makeExpansionString expand]
                else params in
  let params := if String.eqb (typeof query) "string"
                then params ++ [concat "query=" query]
                else params in
  mret (fetch s "get"
          (path +:+ (if (0 <? length params)%nat
                     then "?" +:+ join "&" params else EmptyString))
          JUndefined JUndefined).

(** [upload(path, form_data)] (lines 136-142), without its console log. *)
Definition upload (s : S) (path : string) (form_data : JsVal) : Call :=
  fetch s "post" path form_data
    (JObj [("contentType"%string, JStr "multipart/form-data");
           ("processData"%string, JBool false)]).

(** The [readystatechange] handler of [FileUpload] (lines 154-162): [None]
    when it settles nothing. *)
Definition onreadystatechange (xhr : Xhr) : option Promise :=
  if readyState xhr =? DONE then
    if negb (xhr_status xhr =? 200) && negb (xhr_status xhr =? 201)
    then Some (Rejected (Error (concat "Upload failed: " (JNum (xhr_status xhr)))))
    else Some (Resolved (RValue (JStr (xhr_responseText xhr))))
  else None.

(** A promise is settled by the first event whose handler settles it. *)
Fixpoint settle_first (events : list Xhr) : Promise :=
  match events with
  | [] => Pending
  | xhr :: events' =>
      match onreadystatechange xhr with
      | Some p => p
      | None => settle_first events'
      end
  end.

(** [FileUpload(path, fd)] (lines 144-164) *)
Definition FileUpload (s : S) (path : string) (fd : JsVal) : UploadCall :=
  let token := getTopToken s in
  match bearer token with
  | Throw e => {| upload_sent := None; upload_promise := Rejected e |}
  | Ok authorization =>
      let request := {| xhr_method := "POST";
                        xhr_url := "/api/" +:+ path;
                        xhr_mimeType := "text/plain";
                        xhr_headers := [("Authorization"%string, authorization)];
                        xhr_body := fd |} in
      {| upload_sent := Some request;
         upload_promise := settle_first (xhr_events request) |}
  end.
End Dispatcher.

(** ** The exported clients (lines 166-525)

    A function that only reads an object receives its content; [update],
    which changes the object it is given, receives the location of the object
    and the heap. *)

Module Api.

Section Status.
Context {S : Type} {store : TokenStore S} {backend : Backend}.

Definition status (s : S) : Call :=
  fetch s "get" EmptyString JUndefined JUndefined.
End Status.

Module Tokens.
Section Client.
Context {S : Type} {store : TokenStore S} {backend : Backend}.

(** The callback of [login] (lines 181-194). *)
Definition login_then (wipe : JsVal) (response : JsVal) (s : S) : S * Result JsVal :=
  match js_get response "token" with
  | Throw e => (s, Throw e)
  | Ok token =>
      if truthy token then
        let s := if truthy wipe then clearTokens s else s in
        let s := addToken token s in
        (s, Ok token)
      else
        (clearTokens s, Throw (Error "No token returned"))
  end.

Definition login (s : S) (identity secret wipe : JsVal) : S * Promise :=
  promise_then
    (promise (fetch s "post" "tokens"
                (JObj [("identity"%string, identity); ("secret"%string, secret)])
                JUndefined))
    (login_then wipe) s.

(** The callback of [refresh] (lines 202-210). *)
Definition refresh_then (response : JsVal) (s : S) : S * Result JsVal :=
  match js_get response "token" with
  | Throw e => (s, Throw e)
  | Ok token =>
      if truthy token then (setCurrentToken token s, Ok token)
      else (clearTokens s, Throw (Error "No token returned"))
  end.

Definition refresh (s : S) : S * Promise :=
  promise_then (promise (fetch s "get" "tokens" JUndefined JUndefined))
    refresh_then s.
End Client.
End Tokens.

Module Users.
Section Client.
Context {S : Type} {store : TokenStore S} {backend : Backend}.

Definition getById (s : S) (user_id expand : JsVal) : Result Call :=
  has_expand ← (if String.eqb (typeof expand) "object"
                then len ← js_get expand "length"; Ok (truthy len)
                else Ok false);
  mret (fetch s "get"
          (concat "users/" user_id
           +:+ (if (has_expand : bool)
                then "?expand=" +:+ makeExpansionString expand
                else EmptyString))
          JUndefined JUndefined).

Definition getAll (s : S) (expand query : JsVal) : Result Call :=
  getAllObjects s "users" expand query.

Definition create (s : S) (data : JsVal) : Call :=
  fetch s "post" "users" data JUndefined.

Definition update (h : Heap) (s : S) (data : loc) : Heap * Result Call :=
  match js_get (deref h data) "id" with
  | Throw e => (h, Throw e)
  | Ok id =>
      let h := <[data := js_delete (deref h data) "id"]> h in
      (h, Ok (fetch s "put" (concat "users/" id) (deref h data) JUndefined))
  end.

Definition delete (s : S) (id : JsVal) : Call :=
  fetch s "delete" (concat "users/" id) JUndefined JUndefined.

Definition setPassword (s : S) (id auth : JsVal) : Call :=
  fetch s "put" (concat "users/" id +:+ "/auth") auth JUndefined.

Definition loginAs (s : S) (id : JsVal) : Call :=
  fetch s "post" (concat "users/" id +:+ "/login") JUndefined JUndefined.

Definition setPermissions (s : S) (id perms : JsVal) : Call :=
  fetch s "put" (concat "users/" id +:+ "/permissions") perms JUndefined.
End Client.
End Users.

Module Nginx.

Module ProxyHosts.
Section Client.
Context {S : Type} {store : TokenStore S} {backend : Backend}.

Definition getAll (s : S) (expand query : JsVal) : Result Call :=
  getAllObjects s "nginx/proxy-hosts" expand query.

Definition create (s : S) (data : JsVal) : Call :=
  fetch s "post" "nginx/proxy-hosts" data JUndefined.

Definition update (h : Heap) (s : S) (data : loc) : Heap * Result Call :=
  match js_get (deref h data) "id" with
  | Throw e => (h, Throw e)
  | Ok id =>
      let h := <[data := js_delete (deref h data) "id"]> h in
      (h, Ok (fetch s "put" (concat "nginx/proxy-hosts/" id) (deref h data) JUndefined))
  end.

Definition delete (s : S) (id : JsVal) : Call :=
  fetch s "delete" (concat "nginx/proxy-hosts/" id) JUndefined JUndefined.

Definition setCerts (s : S) (id form_data : JsVal) : UploadCall :=
  FileUpload s (concat "nginx/proxy-hosts/" id +:+ "/certificates") form_data.
End Client.
End ProxyHosts.

Module RedirectionHosts.
Section Client.
Context {S : Type} {store : TokenStore S} {backend : Backend}.

Definition getAll (s : S) (expand query : JsVal) : Result Call :=
  getAllObjects s "nginx/redirection-hosts" expand query.

Definition create (s : S) (data : JsVal) : Call :=
  fetch s "post" "nginx/redirection-hosts" data JUndefined.

Definition update (h : Heap) (s : S) (data : loc) : Heap * Result Call :=
  match js_get (deref h data) "id" with
  | Throw e => (h, Throw e)
  | Ok id =>
      let h := <[data := js_delete (deref h data) "id"]> h in
      (h, Ok (fetch s "put" (concat "nginx/redirection-hosts/" id) (deref h data) JUndefined))
  end.

Definition delete (s : S) (id : JsVal) : Call :=
  fetch s "delete" (concat "nginx/redirection-hosts/" id) JUndefined JUndefined.

Definition setCerts (s : S) (id form_data : JsVal) : Call :=
  upload s (concat "nginx/redirection-hosts/" id +:+ "/certificates") form_data.
End Client.
End RedirectionHosts.

Module Streams.
Section Client.
Context {S : Type} {store : TokenStore S} {backend : Backend}.

Definition getAll (s : S) (expand query : JsVal) : Result Call :=
  getAllObjects s "nginx/streams" expand query.

Definition create (s : S) (data : JsVal) : Call :=
  fetch s "post" "nginx/streams" data JUndefined.

Definition update (h : Heap) (s : S) (data : loc) : Heap * Result Call :=
  match js_get (deref h data) "id" with
  | Throw e => (h, Throw e)
  | Ok id =>
      let h := <[data := js_delete (deref h data) "id"]> h in
      (h, Ok (fetch s "put" (concat "nginx/streams/" id) (deref h data) JUndefined))
  end.

Definition delete (s : S) (id : JsVal) : Call :=
  fetch s "delete" (concat "nginx/streams/" id) JUndefined JUndefined.
End Client.
End Streams.

Module DeadHosts.
Section Client.
Context {S : Type} {store : TokenStore S} {backend : Backend}.

Definition getAll (s : S) (expand query : JsVal) : Result Call :=
  getAllObjects s "nginx/dead-hosts" expand query.

Definition create (s : S) (data : JsVal) : Call :=
  fetch s "post" "nginx/dead-hosts" data JUndefined.

Definition update (h : Heap) (s : S) (data : loc) : Heap * Result Call :=
  match js_get (deref h data) "id" with
  | Throw e => (h, Throw e)
  | Ok id =>
      let h := <[data := js_delete (deref h data) "id"]> h in
      (h, Ok (fetch s "put" (concat "nginx/dead-hosts/" id) (deref h data) JUndefined))
  end.

Definition delete (s : S) (id : JsVal) : Call :=
  fetch s "delete" (concat "nginx/dead-hosts/" id) JUndefined JUndefined.

Definition setCerts (s : S) (id form_data : JsVal) : Call :=
  upload s (concat "nginx/dead-hosts/" id +:+ "/certificates") form_data.
End Client.
End DeadHosts.
End Nginx.

Module AccessLists.
Section Client.
Context {S : Type} {store : TokenStore S} {backend : Backend}.

Definition getAll (s : S) (expand query : JsVal) : Result Call :=
  getAllObjects s "access-lists" expand query.

Definition create (s : S) (data : JsVal) : Call :=
  fetch s "post" "access-lists" data JUndefined.

Definition update (h : Heap) (s : S) (data : loc) : Heap * Result Call :=
  match js_get (deref h data) "id" with
  | Throw e => (h, Throw e)
  | Ok id =>
      let h := <[data := js_delete (deref h data) "id"]> h in
      (h, Ok (fetch s "put" (concat "access-lists/" id) (deref h data) JUndefined))
  end.

Definition delete (s : S) (id : JsVal) : Call :=
  fetch s "delete" (concat "access-lists/" id) JUndefined JUndefined.
End Client.
End AccessLists.

Module AuditLog.
Section Client.
Context {S : Type} {store : TokenStore S} {backend : Backend}.

Definition getAll (s : S) (expand query : JsVal) : Result Call :=
  getAllObjects s "audit-log" expand query.
End Client.
End AuditLog.

Module Reports.
Section Client.
Context {S : Type} {store : TokenStore S} {backend : Backend}.

Definition getHostStats (s : S) : Call :=
  fetch s "get" "reports/hosts" JUndefined JUndefined.
End Client.
End Reports.

End Api.


(** ** Tables of the clients and notions of the specification *)

Section Tables.
Context {S : Type} {store : TokenStore S} {backend : Backend}.

(** Every [update] of the module, with the path of its resource. *)
Definition update_clients : list (string * (Heap -> S -> loc -> Heap * Result Call)) :=
  [ ("users"%string, Api.Users.update);
    ("nginx/proxy-hosts"%string, Api.Nginx.ProxyHosts.update);
    ("nginx/redirection-hosts"%string, Api.Nginx.RedirectionHosts.update);
    ("nginx/streams"%string, Api.Nginx.Streams.update);
    ("nginx/dead-hosts"%string, Api.Nginx.DeadHosts.update);
    ("access-lists"%string, Api.AccessLists.update) ].

(** Every [getAll] of the module, with the path of its resource. *)
Definition getAll_clients : list (string * (S -> JsVal -> JsVal -> Result Call)) :=
  [ ("users"%string, Api.Users.getAll);
    ("nginx/proxy-hosts"%string, Api.Nginx.ProxyHosts.getAll);
    ("nginx/redirection-hosts"%string, Api.Nginx.RedirectionHosts.getAll);
    ("nginx/streams"%string, Api.Nginx.Streams.getAll);
    ("nginx/dead-hosts"%string, Api.Nginx.DeadHosts.getAll);
    ("access-lists"%string, Api.AccessLists.getAll);
    ("audit-log"%string, Api.AuditLog.getAll) ].
End Tables.

(** The error envelope of the specification: a JSON body
    [{ error: { message, code } }].  [error_envelope body] is the message and
    the code field ([undefined] when absent) of a body that has an
    [error.message] field, and [None] for any other body. *)
Definition error_envelope (body : JsVal) : option (JsVal * JsVal) :=
  match body with
  | JObj props =>
      match lookup_prop "error" props with
      | Some (JObj eprops) =>
          match lookup_prop "message" eprops with
          | None | Some JUndefined => None
          | Some m => Some (m, default JUndefined (lookup_prop "code" eprops))
          end
      | _ => None
      end
  | _ => None
  end.

(** Equivalence of query strings, as the specification uses it for
    [getAll]: two query strings are equivalent when they decode to the same
    list of parameters.  Parameters are separated by [&], a name ends at the
    first [=], and [%XX] stands for the byte [XX]. *)
Definition hex_value (c : ascii) : option nat :=
  let n := nat_of_ascii c in
  if is_digit c then Some (n - 48)%nat
  else if char_in 65 70 c then Some (n - 55)%nat
  else if char_in 97 102 c then Some (n - 87)%nat
  else None.

Fixpoint percent_decode (s : string) : string :=
  match s with
  | EmptyString => EmptyString
  | String c s' =>
      match s' with
      | String h1 (String h2 rest) =>
          match hex_value h1, hex_value h2 with
          | Some a, Some b =>
              if Ascii.eqb c "%"
              then String (ascii_of_nat (16 * a + b)) (percent_decode rest)
              else String c (percent_decode s')
          | _, _ => String c (percent_decode s')
          end
      | _ => String c (percent_decode s')
      end
  end.

(** [split_at sep s]: the pieces of [s] between the occurrences of [sep]. *)
Fixpoint split_at (sep : ascii) (s : string) : list string :=
  match s with
  | EmptyString => [EmptyString]
  | String c s' =>
      if Ascii.eqb c sep then EmptyString :: split_at sep s'
      else match split_at sep s' with
           | [] => [String c EmptyString]
           | piece :: pieces => String c piece :: pieces
           end
  end.

(** The name and the value of one parameter: the text before and after the
    first [=]. *)
Fixpoint name_value (s : string) : string * string :=
  match s with
  | EmptyString => (EmptyString, EmptyString)
  | String c s' =>
      if Ascii.eqb c "=" then (EmptyString, s')
      else let '(n, v) := name_value s' in (String c n, v)
  end.

Definition decode_query (q : string) : list (string * string) :=
  map (fun p => let '(n, v) := name_value p in (percent_decode n, percent_decode v))
      (split_at "&" q).

Definition query_equivalent (q1 q2 : string) : Prop :=
  decode_query q1 = decode_query q2.

(** ** Concrete back ends and stores, for the examples *)

(** A back end that gives one fixed reply and one fixed sequence of events. *)
Definition fixed_backend (reply : AjaxReply) (events : list Xhr) : Backend :=
  {| ajax_reply := fun _ => reply; xhr_events := fun _ => events |}.

Definition no_headers : string -> option string := fun _ => None.

Definition json_response (text : string) (body : JsVal) : JqXHR :=
  {| responseHeaders := no_headers; responseText := JStr text; responseJSON := body |}.

(** The headers of the example of the specification: total 42, offset 0,
    limit 10. *)
Definition dataset_headers : string -> option string := fun name =>
  if String.eqb name "X-Dataset-Total" then Some "42"%string
  else if String.eqb name "X-Dataset-Offset" then Some "0"%string
  else if String.eqb name "X-Dataset-Limit" then Some "10"%string
  else None.

Definition dataset_response : JqXHR :=
  {| responseHeaders := dataset_headers;
     responseText := JStr "[]";
     responseJSON := JArr [] |}.

(** Headers as a lenient server may send them: the total 42 after a
    no-break space, the offset [+0] and the limit [10 items]. *)
Definition lenient_response : JqXHR :=
  {| responseHeaders := fun name =>
       if String.eqb name "X-Dataset-Total"
       then Some (String (ascii_of_nat 194) (String (ascii_of_nat 160) "42"))
       else if String.eqb name "X-Dataset-Offset" then Some "+0"%string
       else if String.eqb name "X-Dataset-Limit" then Some "10 items"%string
       else None;
     responseText := JStr "[]";
     responseJSON := JArr [] |}.

Definition silent_backend : Backend :=
  fixed_backend (ReplyError (json_response EmptyString JUndefined) "timeout" (JStr "timeout")) [].

(** Events of an upload that the server answers with status 500, and of one
    it answers with status 201; both responses carry the pagination
    headers. *)
Definition upload_events (status : Z) (text : string) : list Xhr :=
  [ {| readyState := 2; xhr_status := status; xhr_responseText := EmptyString;
       xhr_responseHeaders := dataset_headers |};
    {| readyState := 3; xhr_status := status; xhr_responseText := text;
       xhr_responseHeaders := dataset_headers |};
    {| readyState := 4; xhr_status := status; xhr_responseText := text;
       xhr_responseHeaders := dataset_headers |} ].

(** The object of the example of the specification,
    [{ id: 5, name: 'x' }], at location 1 of the heap. *)
Definition example_object : JsVal :=
  JObj [("id"%string, JNum 5); ("name"%string, JStr "x")].

Definition example_heap : Heap := {[ 1%positive := example_object ]}.

(** The response object of a reply whose body is the JSON value [body]. *)
Definition json_reply (body : JsVal) : JqXHR :=
  {| responseHeaders := no_headers;
     responseText := JSON_stringify body;
     responseJSON := body |}.

(** The error envelope of the example of the specification, and the same
    envelope with the code 0. *)
Definition bad_input (code : JsVal) : JsVal :=
  JObj [("error"%string,
         JObj [("message"%string, JStr "Bad input"); ("code"%string, code)])].

(** A reply whose body is [body], without pagination headers. *)
Definition success_backend (body : JsVal) : Backend :=
  fixed_backend (ReplySuccess body "success" (json_reply body)) [].

(** ** Further tables and notions, for the properties beyond the claims *)

(** [occurs c s]: the character [c] occurs in [s]. *)
Fixpoint occurs (c : ascii) (s : string) : bool :=
  match s with
  | EmptyString => false
  | String x s' => Ascii.eqb x c || occurs c s'
  end.

Section MoreTables.
Context {S : Type} {store : TokenStore S} {backend : Backend}.

(** Every [create] of the module, with the path of its resource. *)
Definition create_clients : list (string * (S -> JsVal -> Call)) :=
  [ ("users"%string, Api.Users.create);
    ("nginx/proxy-hosts"%string, Api.Nginx.ProxyHosts.create);
    ("nginx/redirection-hosts"%string, Api.Nginx.RedirectionHosts.create);
    ("nginx/streams"%string, Api.Nginx.Streams.create);
    ("nginx/dead-hosts"%string, Api.Nginx.DeadHosts.create);
    ("access-lists"%string, Api.AccessLists.create) ].

(** Every [delete] of the module, with the path of its resource. *)
Definition delete_clients : list (string * (S -> JsVal -> Call)) :=
  [ ("users"%string, Api.Users.delete);
    ("nginx/proxy-hosts"%string, Api.Nginx.ProxyHosts.delete);
    ("nginx/redirection-hosts"%string, Api.Nginx.RedirectionHosts.delete);
    ("nginx/streams"%string, Api.Nginx.Streams.delete);
    ("nginx/dead-hosts"%string, Api.Nginx.DeadHosts.delete);
    ("access-lists"%string, Api.AccessLists.delete) ].

(** The two [setCerts] that go through [upload]. *)
Definition upload_setCerts_clients : list (string * (S -> JsVal -> JsVal -> Call)) :=
  [ ("nginx/redirection-hosts"%string, Api.Nginx.RedirectionHosts.setCerts);
    ("nginx/dead-hosts"%string, Api.Nginx.DeadHosts.setCerts) ].
End MoreTables.

(** A response that carries the total [many] and no other pagination
    header. *)
Definition total_only_response : JqXHR :=
  {| responseHeaders := fun name =>
       if String.eqb name "X-Dataset-Total" then Some "many"%string else None;
     responseText := JStr "[]";
     responseJSON := JArr [] |}.

(** An object without identifier, [{ name: 'x' }], at location 1. *)
Definition anonymous_heap : Heap :=
  {[ 1%positive := JObj [("name"%string, JStr "x")] ]}.

(** A reply to [login] whose body has a token and which carries the
    pagination headers. *)
Definition paginated_token_backend : Backend :=
  fixed_backend
    (ReplySuccess (JObj [("token"%string, JStr "abc")]) "success"
       {| responseHeaders := dataset_headers;
          responseText := JSON_stringify (JObj [("token"%string, JStr "abc")]);
          responseJSON := JObj [("token"%string, JStr "abc")] |}) [].

(** A reply that fails with the status text [Unauthorized] and the body
    [body]. *)
Definition failure_backend (body : JsVal) : Backend :=
  fixed_backend (ReplyError (json_reply body) "error" (JStr "Unauthorized")) [].

(** A store whose top token has lost its field [t]. *)
Definition blank_token_store : TokenStore unit :=
  {| getTopToken _ := JObj [("n"%string, JStr "admin")];
     addToken _ s := s;
     setCurrentToken _ s := s;
     clearTokens s := s |}.

(** * Properties *)

(** Case analysis on the steps of [fetch_settings] that may throw: a goal
    [fetch_settings _ = Ok settings -> _] is left with the settings built in
    the one case where none does. *)
Ltac settings_cases options s ct json pd tm a :=
  unfold fetch_settings;
  destruct (js_get (js_or options (JObj [])) "contentType") as [ct|];
    simpl; [|discriminate];
  destruct (if String.eqb (typeof ct) "undefined" then mret true
            else match ct with
                 | JStr c => mret (match_json_im c)
                 | _ => Throw (TypeError "options.contentType.match is not a function")
                 end) as [json|]; simpl; [|discriminate];
  destruct (js_get (js_or options (JObj [])) "processData") as [pd|];
    simpl; [|discriminate];
  destruct (js_get (js_or options (JObj [])) "timeout") as [tm|];
    simpl; [|discriminate];
  destruct (bearer (getTopToken s)) as [a|]; simpl; [|discriminate];
  intros [= <-].

(** ** Strings *)

Lemma append_assoc (a b c : string) : (a +:+ b) +:+ c = a +:+ (b +:+ c).
Proof.
  induction a as [|x a IH]; [reflexivity|].
  change (String x ((a +:+ b) +:+ c) = String x (a +:+ (b +:+ c))).
  rewrite IH. reflexivity.
Qed.

(** ** [parseInt] reads decimal numerals *)

Lemma leading_digits_acc (d : Decimal.uint) (acc : positive) :
  fold_left (fun a x => 10 * a + x) (leading_digits (NilEmpty.string_of_uint d)) (Z.pos acc)
  = Z.pos (Pos.of_uint_acc d acc).
Proof.
  revert acc. induction d; intros acc; simpl; try reflexivity;
    rewrite <- IHd; f_equal;
    match goal with
    | |- context [Z.of_nat (nat_of_ascii ?c) - 48] =>
        let v := eval vm_compute in (Z.of_nat (nat_of_ascii c) - 48) in
        change (Z.of_nat (nat_of_ascii c) - 48) with v
    | _ => idtac
    end; lia.
Qed.

Lemma leading_digits_value (d : Decimal.uint) :
  digits_value (leading_digits (NilEmpty.string_of_uint d)) = Z.of_N (Pos.of_uint d).
Proof.
  unfold digits_value. induction d; simpl; try reflexivity; try exact IHd;
    apply leading_digits_acc.
Qed.

Lemma leading_digits_nonempty (d : Decimal.uint) :
  d <> Decimal.Nil -> leading_digits (NilEmpty.string_of_uint d) <> [].
Proof. destruct d; simpl; try discriminate. contradiction. Qed.

(** A one-byte character that is no white space starts no white space. *)
Lemma skip_spaces_ascii (c : ascii) (s : string) :
  (nat_of_ascii c < 128)%nat -> is_space c = false ->
  skip_spaces (String c s) = String c s.
Proof.
  intros Hc Hspace. cbn [skip_spaces]. rewrite Hspace.
  assert (H2 : forall c2, is_space2 c c2 = false).
  { intros c2. unfold is_space2.
    destruct (Nat.eqb_spec (nat_of_ascii c) 194); [lia | reflexivity]. }
  assert (H3 : forall c2 c3, is_space3 c c2 c3 = false).
  { intros c2 c3. unfold is_space3.
    destruct (Nat.eqb_spec (nat_of_ascii c) 225); [lia|].
    destruct (Nat.eqb_spec (nat_of_ascii c) 226); [lia|].
    destruct (Nat.eqb_spec (nat_of_ascii c) 227); [lia|].
    destruct (Nat.eqb_spec (nat_of_ascii c) 239); [lia|]. reflexivity. }
  destruct s as [|c2 [|c3 s]]; [reflexivity| |]; rewrite H2; [reflexivity|].
  rewrite H3. reflexivity.
Qed.

Lemma parseInt_10_uint (d : Decimal.uint) :
  d <> Decimal.Nil ->
  parseInt_10 (JStr (NilEmpty.string_of_uint d))
  = round_to_double (Z.of_N (Pos.of_uint d))
  /\ parseInt_10 (JStr (String "-" (NilEmpty.string_of_uint d)))
     = round_to_double (- Z.of_N (Pos.of_uint d)).
Proof.
  intros Hd. pose proof (leading_digits_nonempty d Hd) as Hne.
  pose proof (leading_digits_value d) as Hv.
  split.
  - assert (Hs : exists c s', NilEmpty.string_of_uint d = String c s'
                              /\ (nat_of_ascii c < 128)%nat
                              /\ is_space c = false
                              /\ Ascii.eqb c "-" = false
                              /\ Ascii.eqb c "+" = false).
    { destruct d; try contradiction; simpl; eexists _, _;
        (split; [reflexivity|]); (split; [vm_compute; lia|]); repeat split. }
    destruct Hs as (c & s' & Hs & Hascii & Hspace & Hminus & Hplus).
    unfold parseInt_10. simpl to_string. rewrite Hs in *.
    rewrite (skip_spaces_ascii _ _ Hascii Hspace), Hminus, Hplus.
    destruct (leading_digits (String c s')); [contradiction|]. rewrite Hv. f_equal; lia.
  - unfold parseInt_10. simpl to_string.
    rewrite skip_spaces_ascii by (vm_compute; first [lia | reflexivity]).
    change (Ascii.eqb "-" "-") with true. cbv iota.
    destruct (leading_digits (NilEmpty.string_of_uint d)); [contradiction|].
    rewrite Hv. f_equal; lia.
Qed.

(** [parseInt(s, 10)] of the decimal numeral of an integer is the number
    value of that integer. *)
Lemma parseInt_10_numeral (n : Z) :
  parseInt_10 (JStr (string_of_Z n)) = round_to_double n.
Proof.
  destruct n as [|p|p]; [reflexivity| |]; unfold string_of_Z; simpl Z.to_int;
    cbn [NilZero.string_of_int];
    assert (Hd : Pos.to_uint p <> Decimal.Nil)
      by (intros Hnil; pose proof (DecimalPos.Unsigned.of_to p) as Hp;
          rewrite Hnil in Hp; discriminate);
    replace (NilZero.string_of_uint (Pos.to_uint p))
      with (NilEmpty.string_of_uint (Pos.to_uint p))
      by (destruct (Pos.to_uint p); [contradiction|reflexivity..]).
  - rewrite (proj1 (parseInt_10_uint _ Hd)), DecimalPos.Unsigned.of_to. reflexivity.
  - rewrite (proj2 (parseInt_10_uint _ Hd)), DecimalPos.Unsigned.of_to. reflexivity.
Qed.

(** Below 2^53 in absolute value the number value is exact. *)
Lemma round_to_double_exact (n : Z) :
  Z.abs n < 2 ^ 53 -> round_to_double n = JNum n.
Proof.
  intros Hn. unfold round_to_double.
  destruct (Z.ltb_spec (Z.abs n) (2 ^ 53)); [reflexivity | lia].
Qed.

(** [parseInt(s, 10)] of the decimal numeral of an integer below 2^53 in
    absolute value is that integer. *)
Lemma parseInt_10_decimal (n : Z) :
  Z.abs n < 2 ^ 53 -> parseInt_10 (JStr (string_of_Z n)) = JNum n.
Proof.
  intros Hn. rewrite parseInt_10_numeral. apply round_to_double_exact. exact Hn.
Qed.

(** [parseInt(null, 10)], the value of an absent header, is [NaN]. *)
Lemma parseInt_10_null : parseInt_10 JNull = JNaN.
Proof. reflexivity. Qed.

(** ** Reading properties and building the header *)

Lemma js_get_truthy (v : JsVal) (name : string) :
  truthy v = true -> exists x, js_get v name = Ok x.
Proof.
  destruct v; simpl; try discriminate; intros _; eauto.
  destruct (String.eqb name "length"); eauto.
  destruct (array_index name); eauto.
Qed.


Lemma bearer_total (token : JsVal) : exists a, bearer token = Ok a.
Proof.
  unfold bearer. destruct (truthy token) eqn:Ht.
  - destruct (js_get_truthy token "t" Ht) as [x ->]. simpl. eauto.
  - eauto.
Qed.

Lemma bearer_object (props : list (string * JsVal)) :
  bearer (JObj props)
  = Ok ("Bearer " +:+ to_string (default JUndefined (lookup_prop "t" props))).
Proof. reflexivity. Qed.

Lemma bearer_null : bearer JNull = Ok "Bearer null"%string.
Proof. reflexivity. Qed.

(** ** The settings of a request *)

Section SettingsFacts.
Context {S : Type} {store : TokenStore S} {backend : Backend}.

(** What [fetch] sends is what [fetch_settings] builds. *)
Lemma sent_fetch (s : S) (verb path : string) (data options : JsVal)
    (settings : AjaxSettings) :
  sent (fetch s verb path data options) = Some settings <->
  fetch_settings s verb path data options = Ok settings.
Proof.
  unfold fetch. destruct (fetch_settings s verb path data options); simpl.
  - split; intros [= ->]; reflexivity.
  - split; discriminate.
Qed.

(** The promise of a call that was sent is settled by the callbacks. *)
Lemma promise_fetch (s : S) (verb path : string) (data options : JsVal)
    (settings : AjaxSettings) :
  sent (fetch s verb path data options) = Some settings ->
  promise (fetch s verb path data options)
  = match ajax_reply settings with
    | ReplySuccess d ts response => success d ts response
    | ReplyError xhr ts error_thrown => error xhr ts error_thrown
    end.
Proof.
  unfold fetch. destruct (fetch_settings s verb path data options); simpl.
  - intros [= ->]. reflexivity.
  - discriminate.
Qed.

(** Without options, the settings are the defaults and always built. *)
Lemma fetch_settings_default (s : S) (verb path : string) (data : JsVal) :
  exists authorization,
    bearer (getTopToken s) = Ok authorization /\
    fetch_settings s verb path data JUndefined
    = Ok {| url := "/api/" +:+ path;
            data := if String.eqb (typeof data) "object"
                    then JSON_stringify data else data;
            type := verb;
            dataType := "json";
            contentType := JStr "application/json; charset=UTF-8";
            processData := JBool true;
            crossDomain := true;
            timeout := JNum 15000;
            withCredentials := true;
            requestHeaders := [("Authorization"%string, authorization)] |}.
Proof.
  destruct (bearer_total (getTopToken s)) as [a Ha]. exists a. split; [exact Ha|].
  unfold fetch_settings. simpl. rewrite Ha. simpl.
  destruct data; reflexivity.
Qed.

(** The settings [upload] sends. *)
Lemma upload_settings (s : S) (path : string) (form_data : JsVal) :
  exists authorization,
    bearer (getTopToken s) = Ok authorization /\
    sent (upload s path form_data)
    = Some {| url := "/api/" +:+ path;
              data := if String.eqb (typeof form_data) "object"
                      then JSON_stringify form_data else form_data;
              type := "post";
              dataType := "json";
              contentType := JStr "multipart/form-data";
              processData := JBool true;
              crossDomain := true;
              timeout := JNum 15000;
              withCredentials := true;
              requestHeaders := [("Authorization"%string, authorization)] |}.
Proof.
  destruct (bearer_total (getTopToken s)) as [a Ha]. exists a. split; [exact Ha|].
  unfold upload. apply sent_fetch.
  unfold fetch_settings. simpl. rewrite Ha. reflexivity.
Qed.

(** The header of every request [fetch] sends is built by [bearer]. *)
Lemma fetch_authorization (s : S) (verb path : string) (data options : JsVal)
    (settings : AjaxSettings) :
  sent (fetch s verb path data options) = Some settings ->
  exists authorization,
    bearer (getTopToken s) = Ok authorization /\
    requestHeaders settings = [("Authorization"%string, authorization)].
Proof.
  rewrite sent_fetch. settings_cases options s ct json pd tm a. exists a. split; reflexivity.
Qed.

(** The request of [FileUpload]. *)
Lemma FileUpload_sent (s : S) (path : string) (fd : JsVal) :
  exists authorization,
    bearer (getTopToken s) = Ok authorization /\
    FileUpload s path fd
    = (let request := {| xhr_method := "POST";
                         xhr_url := "/api/" +:+ path;
                         xhr_mimeType := "text/plain";
                         xhr_headers := [("Authorization"%string, authorization)];
                         xhr_body := fd |} in
       {| upload_sent := Some request;
          upload_promise := settle_first (xhr_events request) |}).
Proof.
  destruct (bearer_total (getTopToken s)) as [a Ha]. exists a. split; [exact Ha|].
  unfold FileUpload. rewrite Ha. reflexivity.
Qed.

End SettingsFacts.

(** ** Responses: pagination (lines 67-81) *)

Section Responses.
Context {S : Type} {store : TokenStore S} {backend : Backend}.

(** C1, as amended.  When the request succeeds and the response has an
    [X-Dataset-Total] header, the promise of [fetch] is resolved with
    [{ data, pagination: { total, offset, limit } }], the three numbers being
    [parseInt(_, 10)] of the headers [X-Dataset-Total], [X-Dataset-Offset]
    and [X-Dataset-Limit]: the integers these headers are the decimal
    numerals of, when they are below 2^53 in absolute value.  When that
    header is absent ([null]), [resolve] is handed the response object, a
    thenable, and the promise is fulfilled with the decoded body of the
    response, its [responseJSON]. *)
Theorem fetch_success_pagination (s : S) (verb path : string) (data options : JsVal)
    (settings : AjaxSettings) (body : JsVal) (textStatus : string) (response : JqXHR) :
  sent (fetch s verb path data options) = Some settings ->
  ajax_reply settings = ReplySuccess body textStatus response ->
  (forall total,
      responseHeaders response "X-Dataset-Total" = Some total ->
      promise (fetch s verb path data options)
      = Resolved (RValue (JObj [
          ("data"%string, body);
          ("pagination"%string, JObj [
             ("total"%string, parseInt_10 (JStr total));
             ("offset"%string,
                parseInt_10 (getResponseHeader response "X-Dataset-Offset"));
             ("limit"%string,
                parseInt_10 (getResponseHeader response "X-Dataset-Limit"))])])))
  /\ (forall total offset limit : Z,
        Z.abs total < 2 ^ 53 -> Z.abs offset < 2 ^ 53 -> Z.abs limit < 2 ^ 53 ->
        responseHeaders response "X-Dataset-Total" = Some (string_of_Z total) ->
        responseHeaders response "X-Dataset-Offset" = Some (string_of_Z offset) ->
        responseHeaders response "X-Dataset-Limit" = Some (string_of_Z limit) ->
        promise (fetch s verb path data options)
        = Resolved (RValue (JObj [
            ("data"%string, body);
            ("pagination"%string, JObj [("total"%string, JNum total);
                                        ("offset"%string, JNum offset);
                                        ("limit"%string, JNum limit)])])))
  /\ (responseHeaders response "X-Dataset-Total" = None ->
      exists resolution,
        promise (fetch s verb path data options) = Resolved resolution
        /\ resolution = RResponse response
        /\ fulfilled_value resolution = responseJSON response).
Proof.
  intros Hsent Hreply. rewrite (promise_fetch _ _ _ _ _ _ Hsent), Hreply.
  unfold success, getResponseHeader. split; [|split].
  - intros total ->. reflexivity.
  - intros total offset limit Htotal Hoffset Hlimit -> -> ->. simpl.
    rewrite !parseInt_10_decimal by assumption. reflexivity.
  - intros ->. eexists. split; [reflexivity|]. split; reflexivity.
Qed.

End Responses.

(** The example of the specification, headers 42, 0 and 10; and the same
    numbers read from headers with leading white space, a sign and trailing
    text. *)
Lemma fetch_success_pagination_witness :
  promise (fetch (backend := fixed_backend (ReplySuccess (JArr []) "success" dataset_response) [])
                 ([] : TokenStack) "get" "users" JUndefined JUndefined)
  = Resolved (RValue (JObj [
      ("data"%string, JArr []);
      ("pagination"%string, JObj [("total"%string, JNum 42);
                                  ("offset"%string, JNum 0);
                                  ("limit"%string, JNum 10)])]))
  /\ promise (fetch (backend := fixed_backend
                       (ReplySuccess (JArr []) "success" lenient_response) [])
                    ([] : TokenStack) "get" "users" JUndefined JUndefined)
     = Resolved (RValue (JObj [
         ("data"%string, JArr []);
         ("pagination"%string, JObj [("total"%string, JNum 42);
                                     ("offset"%string, JNum 0);
                                     ("limit"%string, JNum 10)])])).
Proof.
  split.
  - refine (proj1 (proj2 (fetch_success_pagination
              (backend := fixed_backend
                 (ReplySuccess (JArr []) "success" dataset_response) [])
              ([] : TokenStack) "get" "users" JUndefined JUndefined
              _ (JArr []) "success" dataset_response eq_refl eq_refl))
            42 0 10 _ _ _ eq_refl eq_refl eq_refl); reflexivity.
  - exact (proj1 (fetch_success_pagination
             (backend := fixed_backend
                (ReplySuccess (JArr []) "success" lenient_response) [])
             ([] : TokenStack) "get" "users" JUndefined JUndefined
             _ (JArr []) "success" lenient_response eq_refl eq_refl)
           _ eq_refl).
Defined.

(** C1 as stated fails: a user record answered without pagination headers.
    [resolve] receives the response object, and what the promise yields is
    the record, the decoded body, which is not the response object. *)
Lemma fetch_success_yields_body :
  promise (fetch (backend := success_backend (JObj [("name"%string, JStr "x")]))
                 ([] : TokenStack) "get" "users/1" JUndefined JUndefined)
  = Resolved (RResponse (json_reply (JObj [("name"%string, JStr "x")])))
  /\ fulfilled_value (RResponse (json_reply (JObj [("name"%string, JStr "x")])))
     = JObj [("name"%string, JStr "x")]
  /\ fulfilled_value (RResponse (json_reply (JObj [("name"%string, JStr "x")])))
     <> response_value (json_reply (JObj [("name"%string, JStr "x")])).
Proof.
  split; [vm_compute; reflexivity|]. split; [reflexivity|].
  vm_compute. discriminate.
Qed.

(** ** The Authorization header (lines 63-65 and 147-151) *)

Section Authorization.
Context {S : Type} {store : TokenStore S} {backend : Backend}.

(** C3.  Every request sent by [fetch] and by [FileUpload] carries the header
    [Authorization], whose value is [Bearer ] followed by the field [t] of the
    top token when the store holds a token, and [Bearer null] when it holds
    none. *)
Theorem authorization_header_bearer (s : S) :
  (forall verb path data options settings,
      sent (fetch s verb path data options) = Some settings ->
      (forall props t,
          getTopToken s = JObj props -> lookup_prop "t" props = Some t ->
          requestHeaders settings
          = [("Authorization"%string, "Bearer " +:+ to_string t)])
      /\ (getTopToken s = JNull ->
          requestHeaders settings = [("Authorization"%string, "Bearer null"%string)]))
  /\ (forall path fd,
        exists request,
          upload_sent (FileUpload s path fd) = Some request
          /\ (forall props t,
                 getTopToken s = JObj props -> lookup_prop "t" props = Some t ->
                 xhr_headers request
                 = [("Authorization"%string, "Bearer " +:+ to_string t)])
          /\ (getTopToken s = JNull ->
              xhr_headers request = [("Authorization"%string, "Bearer null"%string)])).
Proof.
  split.
  - intros verb path data options settings Hsent.
    destruct (fetch_authorization _ _ _ _ _ _ Hsent) as (a & Ha & ->).
    split.
    + intros props t Htok Ht. rewrite Htok, bearer_object, Ht in Ha.
      injection Ha as <-. reflexivity.
    + intros Htok. rewrite Htok, bearer_null in Ha. injection Ha as <-. reflexivity.
  - intros path fd.
    destruct (FileUpload_sent s path fd) as (a & Ha & ->). simpl.
    eexists. split; [reflexivity|]. simpl. split.
    + intros props t Htok Ht. rewrite Htok, bearer_object, Ht in Ha.
      injection Ha as <-. reflexivity.
    + intros Htok. rewrite Htok, bearer_null in Ha. injection Ha as <-. reflexivity.
Qed.

End Authorization.

(** With the token [abc] on top of the store, the requests of [fetch] and of
    [FileUpload] carry [Bearer abc]; with an empty store, [fetch] sends
    [Bearer null]. *)
Lemma authorization_header_bearer_witness :
  option_map requestHeaders
    (sent (fetch (backend := silent_backend) ([JStr "abc"] : TokenStack)
                 "get" "users" JUndefined JUndefined))
  = Some [("Authorization"%string, "Bearer abc"%string)]
  /\ option_map requestHeaders
       (sent (fetch (backend := silent_backend) ([] : TokenStack)
                    "get" "users" JUndefined JUndefined))
     = Some [("Authorization"%string, "Bearer null"%string)]
  /\ (exists request,
        upload_sent (FileUpload (backend := silent_backend) ([JStr "abc"] : TokenStack)
                       "nginx/proxy-hosts/1/certificates" (JFormData []))
        = Some request
        /\ xhr_headers request = [("Authorization"%string, "Bearer abc"%string)]).
Proof.
  split; [|split].
  - exact (f_equal Some
             (proj1 (proj1 (authorization_header_bearer
                              (backend := silent_backend) ([JStr "abc"] : TokenStack))
                           "get"%string "users"%string JUndefined JUndefined _ eq_refl)
                    [("t"%string, JStr "abc")] (JStr "abc") eq_refl eq_refl)).
  - exact (f_equal Some
             (proj2 (proj1 (authorization_header_bearer
                              (backend := silent_backend) ([] : TokenStack))
                           "get"%string "users"%string JUndefined JUndefined _ eq_refl)
                    eq_refl)).
  - destruct (proj2 (authorization_header_bearer
                       (backend := silent_backend) ([JStr "abc"] : TokenStack))
                    "nginx/proxy-hosts/1/certificates"%string (JFormData []))
      as (request & Hsent & Htoken & _).
    exists request. split; [exact Hsent|].
    exact (Htoken [("t"%string, JStr "abc")] (JStr "abc") eq_refl eq_refl).
Defined.

(** ** The body and the options of a request (lines 46-56) *)

Lemma typeof_JSON_stringify (v : JsVal) :
  typeof v = "object"%string -> exists t, JSON_stringify v = JStr t.
Proof.
  unfold JSON_stringify.
  destruct v as [| |[|]| | | | | | |]; simpl; try discriminate; eauto.
Qed.

Section Body.
Context {S : Type} {store : TokenStore S} {backend : Backend}.

(** Whatever the options, the body of the request is the JSON text of the
    data when the data is an object, and the data itself otherwise: line 52
    serializes again what line 46 left alone. *)
Lemma fetch_data_sent (s : S) (verb path : string) (body options : JsVal)
    (settings : AjaxSettings) :
  sent (fetch s verb path body options) = Some settings ->
  data settings
  = if String.eqb (typeof body) "object" then JSON_stringify body else body.
Proof.
  rewrite sent_fetch. settings_cases options s ct json pd tm a. simpl.
  destruct (String.eqb (typeof body) "object") eqn:Hobj.
  - apply String.eqb_eq in Hobj. destruct (typeof_JSON_stringify body Hobj) as [t Ht].
    destruct json; simpl; [rewrite Ht; reflexivity|].
    apply String.eqb_eq in Hobj. rewrite Hobj. reflexivity.
  - rewrite andb_false_r, Hobj. reflexivity.
Qed.

(** The part of the content negotiation the code keeps: under the default
    content type a structured body is sent as its JSON text. *)
Lemma fetch_json_body (s : S) (verb path : string) (body : JsVal) :
  typeof body = "object"%string ->
  exists settings,
    sent (fetch s verb path body JUndefined) = Some settings
    /\ data settings = JSON_stringify body.
Proof.
  intros Hobj. destruct (fetch_settings_default s verb path body) as (a & _ & Hs).
  apply sent_fetch in Hs. eexists. split; [exact Hs|].
  rewrite (fetch_data_sent _ _ _ _ _ _ Hs), Hobj. reflexivity.
Qed.

(** C4, at the failing input.  [upload] configures the content type
    [multipart/form-data] and hands a [FormData] to [fetch]: the body that is
    sent is the JSON text of the form, the two characters [{}], and not the
    form. *)
Theorem upload_body_is_serialized (s : S) (path : string)
    (entries : list (string * string)) :
  exists settings,
    sent (upload s path (JFormData entries)) = Some settings
    /\ contentType settings = JStr "multipart/form-data"
    /\ data settings = JStr "{}"
    /\ data settings <> JFormData entries.
Proof.
  destruct (upload_settings s path (JFormData entries)) as (a & _ & Hs).
  eexists. split; [exact Hs|]. simpl. repeat split. discriminate.
Qed.

(** [options.processData || true] is never false. *)
Lemma fetch_processData_truthy (s : S) (verb path : string) (body options : JsVal)
    (settings : AjaxSettings) :
  sent (fetch s verb path body options) = Some settings ->
  truthy (processData settings) = true.
Proof.
  rewrite sent_fetch. settings_cases options s ct json pd tm a. simpl. unfold js_or.
  destruct (truthy pd) eqn:Hpd; [exact Hpd | reflexivity].
Qed.

(** C5, at the failing input.  [upload] configures [processData: false];
    the request is issued with [processData] true. *)
Theorem upload_processData_is_true (s : S) (path : string) (form_data : JsVal) :
  exists settings,
    sent (upload s path form_data) = Some settings
    /\ processData settings = JBool true.
Proof.
  destruct (upload_settings s path form_data) as (a & _ & Hs).
  eexists. split; [exact Hs|]. reflexivity.
Qed.

End Body.

(** ** The raw upload (lines 144-164) *)

Lemma settle_first_done (earlier later : list Xhr) (xhr : Xhr) (p : Promise) :
  Forall (fun x => readyState x <> DONE) earlier ->
  onreadystatechange xhr = Some p ->
  settle_first (earlier ++ xhr :: later) = p.
Proof.
  intros Hearlier Hp. induction Hearlier as [|x earlier Hx _ IH]; simpl.
  - rewrite Hp. reflexivity.
  - unfold onreadystatechange at 1.
    destruct (Z.eqb_spec (readyState x) DONE) as [Heq|_]; [contradiction|]. exact IH.
Qed.

Section RawUpload.
Context {S : Type} {store : TokenStore S} {backend : Backend}.

(** C9.  [Nginx.ProxyHosts.setCerts] is [FileUpload] on the certificates
    path.  [FileUpload] posts the form as it is, with no content type
    negotiation; once the request is done, its promise is rejected with the
    error [Upload failed: ] followed by the status when the status is neither
    200 nor 201, and resolved with the response text when it is 200 or 201,
    whatever headers the response carries. *)
Theorem FileUpload_settlement (s : S) :
  (forall id fd,
      Api.Nginx.ProxyHosts.setCerts s id fd
      = FileUpload s ("nginx/proxy-hosts/" +:+ to_string id +:+ "/certificates") fd)
  /\ (forall path fd,
        exists request,
          upload_sent (FileUpload s path fd) = Some request
          /\ xhr_method request = "POST"%string
          /\ xhr_url request = "/api/" +:+ path
          /\ xhr_mimeType request = "text/plain"%string
          /\ xhr_body request = fd
          /\ forall earlier xhr later,
               xhr_events request = earlier ++ xhr :: later ->
               Forall (fun x => readyState x <> DONE) earlier ->
               readyState xhr = DONE ->
               (xhr_status xhr <> 200 -> xhr_status xhr <> 201 ->
                upload_promise (FileUpload s path fd)
                = Rejected (Error ("Upload failed: " +:+ string_of_Z (xhr_status xhr))))
               /\ (xhr_status xhr = 200 \/ xhr_status xhr = 201 ->
                   upload_promise (FileUpload s path fd)
                   = Resolved (RValue (JStr (xhr_responseText xhr))))).
Proof.
  split; [reflexivity|]. intros path fd.
  destruct (FileUpload_sent s path fd) as (a & _ & ->). cbv zeta. simpl.
  eexists. split; [reflexivity|]. simpl.
  do 4 (split; [reflexivity|]).
  intros earlier xhr later Hevents Hearlier Hdone. rewrite Hevents. split.
  - intros H200 H201. apply settle_first_done; [assumption|].
    unfold onreadystatechange. rewrite Hdone. simpl.
    destruct (Z.eqb_spec (xhr_status xhr) 200); [contradiction|].
    destruct (Z.eqb_spec (xhr_status xhr) 201); [contradiction|]. reflexivity.
  - intros Hok. apply settle_first_done; [assumption|].
    unfold onreadystatechange. rewrite Hdone. simpl.
    destruct Hok as [-> | ->]; reflexivity.
Qed.

End RawUpload.

(** A certificate upload answered with status 500 is rejected with
    [Upload failed: 500]; answered with status 201 and the text [ok], it is
    resolved with [ok]. *)
Lemma FileUpload_settlement_witness :
  upload_promise (FileUpload (backend := fixed_backend
                                (ReplyError (json_response EmptyString JUndefined)
                                            "error" JUndefined)
                                (upload_events 500 "no"))
                             ([] : TokenStack) "nginx/proxy-hosts/1/certificates"
                             (JFormData [("certificate"%string, "pem"%string)]))
  = Rejected (Error "Upload failed: 500")
  /\ upload_promise (FileUpload (backend := fixed_backend
                                   (ReplyError (json_response EmptyString JUndefined)
                                               "error" JUndefined)
                                   (upload_events 201 "ok"))
                                ([] : TokenStack) "nginx/proxy-hosts/1/certificates"
                                (JFormData [("certificate"%string, "pem"%string)]))
     = Resolved (RValue (JStr "ok")).
Proof.
  split.
  - destruct (proj2 (FileUpload_settlement
                       (backend := fixed_backend
                          (ReplyError (json_response EmptyString JUndefined)
                                      "error" JUndefined)
                          (upload_events 500 "no"))
                       ([] : TokenStack))
                    "nginx/proxy-hosts/1/certificates"%string
                    (JFormData [("certificate"%string, "pem"%string)]))
      as (request & _ & _ & _ & _ & _ & Hdone).
    refine (proj1 (Hdone (firstn 2 (upload_events 500 "no")) _ [] eq_refl _ eq_refl) _ _).
    + repeat constructor; simpl; unfold DONE; lia.
    + simpl; lia.
    + simpl; lia.
  - destruct (proj2 (FileUpload_settlement
                       (backend := fixed_backend
                          (ReplyError (json_response EmptyString JUndefined)
                                      "error" JUndefined)
                          (upload_events 201 "ok"))
                       ([] : TokenStack))
                    "nginx/proxy-hosts/1/certificates"%string
                    (JFormData [("certificate"%string, "pem"%string)]))
      as (request & _ & _ & _ & _ & _ & Hdone).
    refine (proj2 (Hdone (firstn 2 (upload_events 201 "ok")) _ [] eq_refl _ eq_refl) _).
    + repeat constructor; simpl; unfold DONE; lia.
    + right; reflexivity.
Defined.

(** ** [update] (lines 247-251 and its five copies) *)

Lemma lookup_delete_prop (name : string) (props : list (string * JsVal)) :
  lookup_prop name (delete_prop name props) = None.
Proof.
  induction props as [|[k v] props IH]; simpl; [reflexivity|].
  destruct (String.eqb k name) eqn:Hk; simpl; [exact IH|].
  rewrite Hk. exact IH.
Qed.

Lemma lookup_delete_prop_ne (name other : string) (props : list (string * JsVal)) :
  other <> name ->
  lookup_prop other (delete_prop name props) = lookup_prop other props.
Proof.
  intros Hne. induction props as [|[k v] props IH]; simpl; [reflexivity|].
  destruct (String.eqb_spec k name) as [->|Hk]; simpl.
  - destruct (String.eqb_spec name other) as [->|_]; [contradiction|]. exact IH.
  - destruct (String.eqb k other); [reflexivity | exact IH].
Qed.

Section Update.
Context {S : Type} {store : TokenStore S} {backend : Backend}.

(** Every [update] is the same function of its resource path. *)
Lemma update_clients_unfold (base : string)
    (upd : Heap -> S -> loc -> Heap * Result Call) :
  In (base, upd) update_clients ->
  forall h s data,
    upd h s data
    = match js_get (deref h data) "id" with
      | Throw e => (h, Throw e)
      | Ok id =>
          let h' := <[data := js_delete (deref h data) "id"]> h in
          (h', Ok (fetch s "put" (concat (base +:+ "/") id) (deref h' data) JUndefined))
      end.
Proof.
  simpl. intros Hin h s data.
  repeat (destruct Hin as [[= <- <-]|Hin]; [reflexivity|]). contradiction.
Qed.

(** C6.  For every resource, [update(data)] on an object that has a field
    [id] sends a [put] request to the path of the resource followed by [/] and
    the value of [id]; its body is the JSON text of the object without the
    field [id]. *)
Theorem update_sends_put_without_id (base : string)
    (upd : Heap -> S -> loc -> Heap * Result Call)
    (h : Heap) (s : S) (obj : loc) (props : list (string * JsVal)) (id : JsVal) :
  In (base, upd) update_clients ->
  h !! obj = Some (JObj props) ->
  lookup_prop "id" props = Some id ->
  exists h' call settings,
    upd h s obj = (h', Ok call)
    /\ sent call = Some settings
    /\ type settings = "put"%string
    /\ url settings = "/api/" +:+ base +:+ "/" +:+ to_string id
    /\ data settings = JSON_stringify (JObj (delete_prop "id" props))
    /\ lookup_prop "id" (delete_prop "id" props) = None.
Proof.
  intros Hin Hobj Hid. rewrite (update_clients_unfold _ _ Hin).
  unfold deref at 1 2. rewrite Hobj. simpl. rewrite Hid. simpl.
  unfold deref. rewrite lookup_insert_eq. simpl.
  destruct (fetch_settings_default s "put" (concat (base +:+ "/") id)
              (JObj (delete_prop "id" props))) as (a & _ & Hs).
  apply sent_fetch in Hs.
  eexists _, _, _. split; [reflexivity|]. split; [exact Hs|]. simpl.
  repeat split.
  - unfold concat. rewrite append_assoc. reflexivity.
  - apply lookup_delete_prop.
Qed.

(** C10.  For every resource, [update(data)] deletes the field [id] in the
    object the caller passed: after the call the caller's location holds the
    object without [id], no other location has changed, and none was
    allocated. *)
Theorem update_mutates_argument (base : string)
    (upd : Heap -> S -> loc -> Heap * Result Call)
    (h : Heap) (s : S) (obj : loc) (props : list (string * JsVal)) :
  In (base, upd) update_clients ->
  h !! obj = Some (JObj props) ->
  let h' := fst (upd h s obj) in
  h' !! obj = Some (JObj (delete_prop "id" props))
  /\ lookup_prop "id" (delete_prop "id" props) = None
  /\ (forall name, name <> "id"%string ->
        lookup_prop name (delete_prop "id" props) = lookup_prop name props)
  /\ (forall l, l <> obj -> h' !! l = h !! l)
  /\ dom h' = dom h.
Proof.
  intros Hin Hobj. rewrite (update_clients_unfold _ _ Hin).
  unfold deref at 1 2. rewrite Hobj. simpl. split; [|split; [|split; [|split]]].
  - apply lookup_insert_eq.
  - apply lookup_delete_prop.
  - intros name Hname. apply lookup_delete_prop_ne. exact Hname.
  - intros l Hl. apply lookup_insert_ne. congruence.
  - apply dom_insert_lookup_L. rewrite Hobj. eauto.
Qed.

End Update.

(** The example of the specification: [update({ id: 5, name: 'x' })] on the
    users sends a [put] request to [/api/users/5] whose body is the text
    [{"name":"x"}]. *)
Lemma update_sends_put_without_id_witness :
  exists h' call settings,
    Api.Users.update (backend := silent_backend) example_heap ([] : TokenStack) 1%positive
    = (h', Ok call)
    /\ sent call = Some settings
    /\ type settings = "put"%string
    /\ url settings = "/api/users/5"%string
    /\ data settings
       = JStr ("{" +:+ dquote +:+ "name" +:+ dquote +:+ ":"
               +:+ dquote +:+ "x" +:+ dquote +:+ "}")
    /\ lookup_prop "id" [("name"%string, JStr "x")] = None.
Proof.
  exact (update_sends_put_without_id (backend := silent_backend)
           "users" Api.Users.update example_heap ([] : TokenStack) 1%positive
           [("id"%string, JNum 5); ("name"%string, JStr "x")] (JNum 5)
           (or_introl eq_refl) eq_refl eq_refl).
Defined.

(** After [update] on the example object, the caller's object is
    [{ name: 'x' }]. *)
Lemma update_mutates_argument_witness :
  fst (Api.Users.update (backend := silent_backend) example_heap ([] : TokenStack)
         1%positive) !! 1%positive
  = Some (JObj [("name"%string, JStr "x")]).
Proof.
  exact (proj1 (update_mutates_argument (backend := silent_backend)
                  "users" Api.Users.update example_heap ([] : TokenStack) 1%positive
                  [("id"%string, JNum 5); ("name"%string, JStr "x")]
                  (or_introl eq_refl) eq_refl)).
Defined.

(** ** [getAll] (lines 102-129) *)

Section GetAll.
Context {S : Type} {store : TokenStore S} {backend : Backend}.

(** Every [getAll] is [getAllObjects] on the path of its resource. *)
Lemma getAll_clients_unfold (base : string) (getAll : S -> JsVal -> JsVal -> Result Call) :
  In (base, getAll) getAll_clients ->
  forall s expand query, getAll s expand query = getAllObjects s base expand query.
Proof.
  simpl. intros Hin s expand query.
  repeat (destruct Hin as [[= <- <-]|Hin]; [reflexivity|]). contradiction.
Qed.

Lemma makeExpansionString_strings (items : list string) :
  makeExpansionString (JArr (map JStr items)) = join "," (map encodeURIComponent items).
Proof.
  unfold makeExpansionString. simpl. rewrite map_map. reflexivity.
Qed.

(** C8.  For every resource, [getAll(expand, query)] with a non-empty list of
    names and a string query sends a [get] request whose path carries the
    query string [expand=], the names each percent-encoded and joined with
    commas, then [&query=] and the query as it was given.  For the names
    [owner] and [certificate] and the query [foo=bar] the query string is
    [expand=owner,certificate&query=foo=bar], which decodes to the same
    parameters as [expand=owner%2Ccertificate&query=foo%3Dbar]. *)
Theorem getAll_query_string (base : string)
    (getAll : S -> JsVal -> JsVal -> Result Call)
    (s : S) (items : list string) (query : string) :
  In (base, getAll) getAll_clients ->
  items <> [] ->
  (exists call settings,
      getAll s (JArr (map JStr items)) (JStr query) = Ok call
      /\ sent call = Some settings
      /\ type settings = "get"%string
      /\ url settings
         = "/api/" +:+ base +:+ "?expand=" +:+ join "," (map encodeURIComponent items)
           +:+ "&query=" +:+ query)
  /\ join "," (map encodeURIComponent ["owner"; "certificate"]%string)
     = "owner,certificate"%string
  /\ query_equivalent "expand=owner,certificate&query=foo=bar"
                      "expand=owner%2Ccertificate&query=foo%3Dbar".
Proof.
  intros Hin Hitems. split; [|split; vm_compute; reflexivity].
  rewrite (getAll_clients_unfold _ _ Hin). unfold getAllObjects.
  assert (Hlen : negb (Z.of_nat (length (map JStr items)) =? 0) = true).
  { destruct items; [contradiction|]. reflexivity. }
  simpl. rewrite Hlen. simpl. rewrite makeExpansionString_strings.
  match goal with
  | |- context [fetch s "get" ?p JUndefined JUndefined] =>
      destruct (fetch_settings_default s "get" p JUndefined) as (a & _ & Hs)
  end.
  apply sent_fetch in Hs.
  eexists _, _. split; [reflexivity|]. split; [exact Hs|]. simpl.
  split; reflexivity.
Qed.

End GetAll.

(** The example of the specification:
    [getAll(['owner', 'certificate'], 'foo=bar')] on the users. *)
Lemma getAll_query_string_witness :
  exists call settings,
    Api.Users.getAll (backend := silent_backend) ([] : TokenStack)
      (JArr [JStr "owner"; JStr "certificate"]) (JStr "foo=bar") = Ok call
    /\ sent call = Some settings
    /\ type settings = "get"%string
    /\ url settings = "/api/users?expand=owner,certificate&query=foo=bar"%string.
Proof.
  refine (proj1 (getAll_query_string (backend := silent_backend)
                   "users" Api.Users.getAll ([] : TokenStack)
                   ["owner"; "certificate"]%string "foo=bar"
                   (or_introl eq_refl) _)).
  discriminate.
Defined.

(** ** Errors (lines 83-92) *)


(** The outcome of the [error] callback on every response whose body and
    whose [error] field are not [null]. *)
Lemma error_rejects (xhr : JqXHR) (textStatus : string) (error_thrown : JsVal) :
  responseJSON xhr <> JNull ->
  js_get (responseJSON xhr) "error" <> Ok JNull ->
  error xhr textStatus error_thrown
  = Rejected
      match error_envelope (responseJSON xhr) with
      | Some (m, c) =>
          ApiError (to_string m) (responseText xhr) (if truthy c then c else JNum 500)
      | None =>
          ApiError (match error_thrown with
                    | JUndefined => EmptyString
                    | _ => to_string error_thrown
                    end) (responseText xhr) (JNum 400)
      end.
Proof.
  intros Hbody Herror. unfold error, error_message_code.
  destruct (responseJSON xhr) as [| | | | | |items|props| |]; try reflexivity;
    try contradiction.
  simpl in *.
  destruct (lookup_prop "error" props) as [e|]; [|reflexivity]. simpl in *.
  destruct e as [| | | | | |eitems|eprops| |]; try reflexivity; try contradiction.
  simpl.
  destruct (lookup_prop "message" eprops) as [m|]; [|reflexivity]. simpl.
  destruct m; reflexivity.
Qed.

(** A body that is [null], or whose [error] field is [null], makes the
    callback throw: the promise is never settled. *)
Lemma error_null_body_uncaught (text : JsVal) (textStatus : string) (error_thrown : JsVal) :
  error {| responseHeaders := no_headers; responseText := text; responseJSON := JNull |}
        textStatus error_thrown
  = Uncaught (TypeError "Cannot read property 'error' of null")
  /\ error {| responseHeaders := no_headers; responseText := text;
              responseJSON := JObj [("error"%string, JNull)] |}
           textStatus error_thrown
     = Uncaught (TypeError "Cannot read property 'message' of null").
Proof. split; reflexivity. Qed.

Section Errors.
Context {S : Type} {store : TokenStore S} {backend : Backend}.

(** C2, as amended.  When the request fails and neither the body nor its
    [error] field is [null], the promise of [fetch] is rejected with an
    [ApiError] whose [debug] is the response text; if the body is a JSON
    object with an [error.message] field, the message is that field and the
    code is [error.code] when that is truthy and 500 otherwise (absent, 0,
    [null], empty); for any other body the message is the error text of the
    transport and the code is 400. *)
Theorem fetch_error_rejection (s : S) (verb path : string) (body options : JsVal)
    (settings : AjaxSettings) (xhr : JqXHR) (textStatus : string) (error_thrown : JsVal) :
  sent (fetch s verb path body options) = Some settings ->
  ajax_reply settings = ReplyError xhr textStatus error_thrown ->
  responseJSON xhr <> JNull ->
  js_get (responseJSON xhr) "error" <> Ok JNull ->
  promise (fetch s verb path body options)
  = Rejected
      match error_envelope (responseJSON xhr) with
      | Some (m, c) =>
          ApiError (to_string m) (responseText xhr) (if truthy c then c else JNum 500)
      | None =>
          ApiError (match error_thrown with
                    | JUndefined => EmptyString
                    | _ => to_string error_thrown
                    end) (responseText xhr) (JNum 400)
      end.
Proof.
  intros Hsent Hreply Hbody Herror.
  rewrite (promise_fetch _ _ _ _ _ _ Hsent), Hreply.
  apply error_rejects; assumption.
Qed.

End Errors.

(** The example of the specification: the body
    [{ error: { message: 'Bad input', code: 422 } }] rejects with the message
    [Bad input] and the code 422. *)
Lemma fetch_error_rejection_witness :
  promise (fetch (backend := fixed_backend
                    (ReplyError (json_reply (bad_input (JNum 422))) "error"
                                (JStr "Unprocessable Entity")) [])
                 ([] : TokenStack) "post" "users" (JObj []) JUndefined)
  = Rejected (ApiError "Bad input" (JSON_stringify (bad_input (JNum 422))) (JNum 422)).
Proof.
  refine (fetch_error_rejection
            (backend := fixed_backend
               (ReplyError (json_reply (bad_input (JNum 422))) "error"
                           (JStr "Unprocessable Entity")) [])
            ([] : TokenStack) "post" "users" (JObj []) JUndefined
            _ (json_reply (bad_input (JNum 422))) "error" (JStr "Unprocessable Entity")
            eq_refl eq_refl _ _); discriminate.
Defined.

(** C2 as stated fails: in the body
    [{ error: { message: 'Bad input', code: 0 } }] the field [error.code] is
    present and is 0, and the promise is rejected with the code 500. *)
Lemma fetch_error_code_zero :
  error_envelope (bad_input (JNum 0)) = Some (JStr "Bad input", JNum 0)
  /\ promise (fetch (backend := fixed_backend
                       (ReplyError (json_reply (bad_input (JNum 0))) "error"
                                   (JStr "Unprocessable Entity")) [])
                    ([] : TokenStack) "post" "users" (JObj []) JUndefined)
     = Rejected (ApiError "Bad input" (JSON_stringify (bad_input (JNum 0))) (JNum 500))
  /\ promise (fetch (backend := fixed_backend
                       (ReplyError (json_reply (bad_input (JNum 0))) "error"
                                   (JStr "Unprocessable Entity")) [])
                    ([] : TokenStack) "post" "users" (JObj []) JUndefined)
     <> Rejected (ApiError "Bad input" (JSON_stringify (bad_input (JNum 0))) (JNum 0)).
Proof.
  split; [reflexivity|]. split; [vm_compute; reflexivity|].
  vm_compute. discriminate.
Qed.

(** ** [login] and [refresh] (lines 179-211) *)

Section Login.
Context {S : Type} {store : TokenStore S} {backend : Backend}.

(** C7, as amended.  [response] is the value the promise of [fetch] is
    fulfilled with.  [login]: when [response.token] is truthy, the store is
    cleared first if [wipe] is truthy, the token is added to it and the
    promise resolves with the token; when [response] is an object whose
    [token] is absent or falsy, the store is cleared and the promise rejects
    with the error [No token returned].  [refresh]: when [response.token] is
    truthy it overwrites the current token and the promise resolves with it;
    when it is absent or falsy, the store is cleared and the promise
    rejects. *)
Theorem login_refresh_tokens (s : S) (identity secret wipe : JsVal) :
  (forall r,
      promise (fetch s "post" "tokens"
                 (JObj [("identity"%string, identity); ("secret"%string, secret)])
                 JUndefined) = Resolved r ->
      (forall token,
          js_get (fulfilled_value r) "token" = Ok token -> truthy token = true ->
          Api.Tokens.login s identity secret wipe
          = (addToken token (if truthy wipe then clearTokens s else s),
             Resolved (RValue token)))
      /\ (forall token,
            js_get (fulfilled_value r) "token" = Ok token -> truthy token = false ->
            Api.Tokens.login s identity secret wipe
            = (clearTokens s, Rejected (Error "No token returned"))))
  /\ (forall r,
        promise (fetch s "get" "tokens" JUndefined JUndefined) = Resolved r ->
        (forall token,
            js_get (fulfilled_value r) "token" = Ok token -> truthy token = true ->
            Api.Tokens.refresh s = (setCurrentToken token s, Resolved (RValue token)))
        /\ (forall token,
              js_get (fulfilled_value r) "token" = Ok token -> truthy token = false ->
              Api.Tokens.refresh s
              = (clearTokens s, Rejected (Error "No token returned")))).
Proof.
  split; intros r Hr.
  - unfold Api.Tokens.login. rewrite Hr. unfold promise_then, Api.Tokens.login_then.
    split; intros token -> ->; reflexivity.
  - unfold Api.Tokens.refresh. rewrite Hr. unfold promise_then, Api.Tokens.refresh_then.
    split; intros token -> ->; reflexivity.
Qed.

(** A failed request leaves the store alone and passes the rejection on. *)
Lemma login_rejected (s : S) (identity secret wipe : JsVal) (e : JsError) :
  promise (fetch s "post" "tokens"
             (JObj [("identity"%string, identity); ("secret"%string, secret)])
             JUndefined) = Rejected e ->
  Api.Tokens.login s identity secret wipe = (s, Rejected e).
Proof. intros Hp. unfold Api.Tokens.login. rewrite Hp. reflexivity. Qed.

End Login.

(** [login(identity, secret, true)] on a store that holds the token [old]:
    with the body [{ token: 'abc' }] the store holds [abc] alone and the
    promise resolves with [abc]; with the body [{}] the store is empty and the
    promise rejects. *)
Lemma login_refresh_tokens_witness :
  Api.Tokens.login (backend := success_backend (JObj [("token"%string, JStr "abc")]))
    ([JStr "old"] : TokenStack) (JStr "admin") (JStr "secret") (JBool true)
  = ([JStr "abc"], Resolved (RValue (JStr "abc")))
  /\ Api.Tokens.login (backend := success_backend (JObj []))
       ([JStr "old"] : TokenStack) (JStr "admin") (JStr "secret") (JBool true)
     = ([], Rejected (Error "No token returned")).
Proof.
  split.
  - exact (proj1 (proj1 (login_refresh_tokens
                           (backend := success_backend (JObj [("token"%string, JStr "abc")]))
                           ([JStr "old"] : TokenStack) (JStr "admin") (JStr "secret")
                           (JBool true))
                        (RResponse (json_reply (JObj [("token"%string, JStr "abc")])))
                        eq_refl)
                 (JStr "abc") eq_refl eq_refl).
  - exact (proj2 (proj1 (login_refresh_tokens
                           (backend := success_backend (JObj []))
                           ([JStr "old"] : TokenStack) (JStr "admin") (JStr "secret")
                           (JBool true))
                        (RResponse (json_reply (JObj []))) eq_refl)
                 JUndefined eq_refl eq_refl).
Defined.

(** C7 as stated fails: the body [{ token: '' }] contains a token field,
    and [login] clears the store and rejects. *)
Lemma login_empty_token :
  lookup_prop "token" [("token"%string, JStr EmptyString)] = Some (JStr EmptyString)
  /\ Api.Tokens.login
       (backend := success_backend (JObj [("token"%string, JStr EmptyString)]))
       ([JStr "old"] : TokenStack) (JStr "admin") (JStr "secret") (JBool false)
     = ([], Rejected (Error "No token returned"))
  /\ Api.Tokens.login
       (backend := success_backend (JObj [("token"%string, JStr EmptyString)]))
       ([JStr "old"] : TokenStack) (JStr "admin") (JStr "secret") (JBool false)
     <> ([JStr EmptyString; JStr "old"], Resolved (RValue (JStr EmptyString))).
Proof.
  split; [reflexivity|]. split; [vm_compute; reflexivity|].
  vm_compute. discriminate.
Qed.

(** A response without a body ([null]) makes the callback of [login] throw
    on [response.token]: the promise rejects with that exception and the
    store keeps its tokens. *)
Lemma login_null_response :
  Api.Tokens.login (backend := success_backend JNull)
    ([JStr "old"] : TokenStack) (JStr "admin") (JStr "secret") (JBool true)
  = ([JStr "old"], Rejected (TypeError "Cannot read property 'token' of null")).
Proof. vm_compute. reflexivity. Qed.

(** * Further properties of the module *)

(** ** Percent-encoding and the expansion string (lines 102-109) *)

Lemma hex_value_hex_digit (n : nat) :
  (n < 16)%nat -> hex_value (hex_digit true n) = Some n.
Proof.
  intros Hn. do 16 (destruct n as [|n]; [reflexivity|]). lia.
Qed.

Lemma unreserved_hex_digit (n : nat) :
  (n < 16)%nat -> uri_unreserved (hex_digit true n) = true.
Proof.
  intros Hn. do 16 (destruct n as [|n]; [reflexivity|]). lia.
Qed.

Lemma nat_of_ascii_bound (c : ascii) : (nat_of_ascii c / 16 < 16)%nat.
Proof.
  pose proof (nat_ascii_bounded c) as Hc.
  apply Nat.Div0.div_lt_upper_bound. lia.
Qed.

Lemma percent_decode_escape (c : ascii) (t : string) :
  percent_decode (String "%" (hex2 true c +:+ t)) = String c (percent_decode t).
Proof.
  unfold hex2.
  change (percent_decode
            (String "%" (String (hex_digit true (nat_of_ascii c / 16))
                           (String (hex_digit true (nat_of_ascii c mod 16)) t)))
          = String c (percent_decode t)).
  cbn [percent_decode].
  rewrite (hex_value_hex_digit _ (nat_of_ascii_bound c)).
  rewrite (hex_value_hex_digit (nat_of_ascii c mod 16))
    by (apply Nat.mod_upper_bound; lia).
  cbv beta iota. change (Ascii.eqb "%" "%") with true. cbv iota.
  rewrite <- Nat.div_mod_eq, ascii_nat_embedding. reflexivity.
Qed.

Lemma percent_decode_plain (c : ascii) (t : string) :
  Ascii.eqb c "%" = false ->
  percent_decode (String c t) = String c (percent_decode t).
Proof.
  intros Hc. cbn [percent_decode].
  destruct t as [|h1 [|h2 rest]]; try reflexivity.
  destruct (hex_value h1), (hex_value h2); try reflexivity.
  rewrite Hc. reflexivity.
Qed.

Lemma unreserved_not_percent (c : ascii) :
  uri_unreserved c = true -> Ascii.eqb c "%" = false.
Proof.
  intros Hc. destruct (Ascii.eqb_spec c "%") as [->|_]; [|reflexivity].
  vm_compute in Hc. discriminate.
Qed.

Lemma encodeURIComponent_cons (c : ascii) (s : string) :
  encodeURIComponent (String c s)
  = if uri_unreserved c then String c (encodeURIComponent s)
    else String "%" (hex2 true c +:+ encodeURIComponent s).
Proof.
  cbn [encodeURIComponent]. destruct (uri_unreserved c); [reflexivity|].
  unfold hex2. reflexivity.
Qed.

(** Decoding what [encodeURIComponent] produced gives the string back, also
    when more text follows. *)
Lemma percent_decode_encode_app (s t : string) :
  percent_decode (encodeURIComponent s +:+ t) = s +:+ percent_decode t.
Proof.
  induction s as [|c s IH]; [reflexivity|].
  rewrite encodeURIComponent_cons. destruct (uri_unreserved c) eqn:Hc.
  - change (percent_decode (String c (encodeURIComponent s +:+ t))
            = String c (s +:+ percent_decode t)).
    rewrite (percent_decode_plain _ _ (unreserved_not_percent _ Hc)), IH. reflexivity.
  - change (percent_decode (String "%" ((hex2 true c +:+ encodeURIComponent s) +:+ t))
            = String c (s +:+ percent_decode t)).
    rewrite append_assoc, percent_decode_escape, IH. reflexivity.
Qed.

Lemma append_empty_r (s : string) : s +:+ EmptyString = s.
Proof.
  induction s as [|c s IH]; [reflexivity|].
  change (String c (s +:+ EmptyString) = String c s). rewrite IH. reflexivity.
Qed.

Lemma percent_decode_encode (s : string) :
  percent_decode (encodeURIComponent s) = s.
Proof.
  rewrite <- (append_empty_r (encodeURIComponent s)), percent_decode_encode_app.
  apply append_empty_r.
Qed.

(** [encodeURIComponent] leaves nothing but unreserved characters and the
    percent sign. *)
Lemma occurs_encodeURIComponent (c : ascii) (s : string) :
  occurs c (encodeURIComponent s) = true ->
  uri_unreserved c = true \/ c = "%"%char.
Proof.
  induction s as [|x s IH]; [discriminate|].
  rewrite encodeURIComponent_cons. destruct (uri_unreserved x) eqn:Hx.
  - cbn [occurs]. destruct (Ascii.eqb_spec x c) as [<-|_]; [left; exact Hx | exact IH].
  - unfold hex2.
    change (occurs c (String "%" (String (hex_digit true (nat_of_ascii x / 16))
                        (String (hex_digit true (nat_of_ascii x mod 16))
                           (encodeURIComponent s)))) = true
            -> uri_unreserved c = true \/ c = "%"%char).
    cbn [occurs].
    destruct (Ascii.eqb_spec "%" c) as [<-|_]; [right; reflexivity|].
    destruct (Ascii.eqb_spec (hex_digit true (nat_of_ascii x / 16)) c) as [<-|_].
    { left. apply unreserved_hex_digit, nat_of_ascii_bound. }
    destruct (Ascii.eqb_spec (hex_digit true (nat_of_ascii x mod 16)) c) as [<-|_].
    { left. apply unreserved_hex_digit, Nat.mod_upper_bound. lia. }
    exact IH.
Qed.

Lemma encodeURIComponent_reserved (c : ascii) (s : string) :
  uri_unreserved c = false -> Ascii.eqb c "%" = false ->
  occurs c (encodeURIComponent s) = false.
Proof.
  intros Hc Hp. destruct (occurs c (encodeURIComponent s)) eqn:Ho; [|reflexivity].
  destruct (occurs_encodeURIComponent _ _ Ho) as [Hu | ->]; [congruence | discriminate].
Qed.

Lemma split_at_no_sep (sep : ascii) (a : string) :
  occurs sep a = false -> split_at sep a = [a].
Proof.
  induction a as [|c a IH]; [reflexivity|]. cbn [occurs split_at].
  destruct (Ascii.eqb c sep); [discriminate|]. intros Ha. rewrite (IH Ha). reflexivity.
Qed.

Lemma split_at_app (sep : ascii) (a b : string) :
  occurs sep a = false ->
  split_at sep (a +:+ String sep b) = a :: split_at sep b.
Proof.
  induction a as [|c a IH].
  - intros _. change (split_at sep (String sep b) = EmptyString :: split_at sep b).
    cbn [split_at]. rewrite Ascii.eqb_refl. reflexivity.
  - cbn [occurs]. destruct (Ascii.eqb c sep) eqn:Hc; [discriminate|]. intros Ha.
    change (split_at sep (String c (a +:+ String sep b)) = String c a :: split_at sep b).
    cbn [split_at]. rewrite Hc, (IH Ha). reflexivity.
Qed.

Lemma split_at_join (sep : ascii) (l : list string) :
  l <> [] -> Forall (fun x => occurs sep x = false) l ->
  split_at sep (join (String sep EmptyString) l) = l.
Proof.
  intros Hl Hall. induction Hall as [|x l Hx Hall IH]; [contradiction|].
  destruct l as [|y l].
  - apply split_at_no_sep. exact Hx.
  - change (split_at sep (x +:+ String sep (join (String sep EmptyString) (y :: l)))
            = x :: y :: l).
    rewrite (split_at_app _ _ _ Hx), IH; [reflexivity | discriminate].
Qed.

Lemma percent_decode_join (items : list string) :
  percent_decode (join "," (map encodeURIComponent items)) = join "," items.
Proof.
  induction items as [|x items IH]; [reflexivity|].
  destruct items as [|y items].
  - apply percent_decode_encode.
  - change (percent_decode
              (encodeURIComponent x
               +:+ String "," (join "," (map encodeURIComponent (y :: items))))
            = x +:+ String "," (join "," (y :: items))).
    rewrite percent_decode_encode_app, percent_decode_plain by reflexivity.
    rewrite IH. reflexivity.
Qed.

(** X1.  The expansion string can be taken apart again: for a non-empty
    list of names, splitting [makeExpansionString] at the commas and decoding
    each piece gives the names back, whatever characters they contain. *)
Theorem makeExpansionString_round_trip (items : list string) :
  items <> [] ->
  map percent_decode (split_at "," (makeExpansionString (JArr (map JStr items))))
  = items.
Proof.
  intros Hitems. rewrite makeExpansionString_strings, split_at_join.
  - rewrite map_map. rewrite <- (map_id items) at 2.
    apply map_ext. intros s. apply percent_decode_encode.
  - destruct items; [contradiction | discriminate].
  - clear Hitems. induction items as [|s items IH]; constructor; [|exact IH].
    apply encodeURIComponent_reserved; reflexivity.
Qed.

(** Names with commas, ampersands and spaces come back unchanged. *)
Lemma makeExpansionString_round_trip_witness :
  map percent_decode
    (split_at "," (makeExpansionString
                     (JArr (map JStr ["owner"; "a,b&c d"; "100%"]%string))))
  = ["owner"; "a,b&c d"; "100%"]%string.
Proof.
  apply (makeExpansionString_round_trip ["owner"; "a,b&c d"; "100%"]%string).
  discriminate.
Defined.

Lemma occurs_app (c : ascii) (a b : string) :
  occurs c (a +:+ b) = occurs c a || occurs c b.
Proof.
  induction a as [|x a IH]; [reflexivity|].
  change (Ascii.eqb x c || occurs c (a +:+ b)
          = Ascii.eqb x c || occurs c a || occurs c b).
  rewrite IH, orb_assoc. reflexivity.
Qed.

(** A reserved character other than the comma does not occur in an
    expansion string. *)
Lemma occurs_join_encode (c : ascii) (items : list string) :
  uri_unreserved c = false -> Ascii.eqb c "%" = false -> Ascii.eqb "," c = false ->
  occurs c (join "," (map encodeURIComponent items)) = false.
Proof.
  intros Hc Hp Hcomma. induction items as [|x items IH]; [reflexivity|].
  destruct items as [|y items].
  - apply encodeURIComponent_reserved; assumption.
  - change (occurs c (encodeURIComponent x
                      +:+ String "," (join "," (map encodeURIComponent (y :: items))))
            = false).
    rewrite occurs_app, (encodeURIComponent_reserved _ _ Hc Hp). cbn [occurs orb].
    rewrite Hcomma. exact IH.
Qed.

(** ** [getAll] and [getById]: the optional parameters (lines 117-129, 221-223) *)

Section OptionalParameters.
Context {S : Type} {store : TokenStore S} {backend : Backend}.

(** A call without options is always sent, to the path under [/api/]. *)
Lemma fetch_default_sent (s : S) (verb path : string) (body : JsVal) :
  exists settings,
    sent (fetch s verb path body JUndefined) = Some settings
    /\ url settings = "/api/" +:+ path
    /\ type settings = verb
    /\ data settings
       = (if String.eqb (typeof body) "object" then JSON_stringify body else body)
    /\ contentType settings = JStr "application/json; charset=UTF-8"
    /\ timeout settings = JNum 15000.
Proof.
  destruct (fetch_settings_default s verb path body) as (a & _ & Hs).
  apply sent_fetch in Hs. eexists. split; [exact Hs|]. repeat split.
Qed.

(** X2.  For every resource, [getAll] without a list to expand
    ([undefined], [null] or an empty array) sends a [get] request without
    body to the path of the resource, followed by [?query=] and the query
    when the query is a string, and by nothing when it is not: a query of
    any other type is dropped. *)
Theorem getAll_without_expand (base : string)
    (getAll : S -> JsVal -> JsVal -> Result Call)
    (s : S) (expand query : JsVal) :
  In (base, getAll) getAll_clients ->
  expand = JUndefined \/ expand = JNull \/ expand = JArr [] ->
  exists call settings,
    getAll s expand query = Ok call
    /\ sent call = Some settings
    /\ type settings = "get"%string
    /\ data settings = JUndefined
    /\ url settings
       = "/api/" +:+ base +:+ match query with
                             | JStr q => "?query=" +:+ q
                             | _ => EmptyString
                             end.
Proof.
  intros Hin Hexpand. rewrite (getAll_clients_unfold _ _ Hin).
  assert (Hcall : exists suffix,
             getAllObjects s base expand query
             = Ok (fetch s "get" (base +:+ suffix) JUndefined JUndefined)
             /\ suffix = match query with
                         | JStr q => "?query=" +:+ q
                         | _ => EmptyString
                         end).
  { destruct Hexpand as [-> | [-> | ->]]; destruct query;
      eexists; (split; [reflexivity|]); reflexivity. }
  destruct Hcall as (suffix & -> & ->).
  match goal with
  | |- context [fetch s "get" ?p JUndefined JUndefined] =>
      destruct (fetch_default_sent s "get" p JUndefined)
        as (settings & Hsent & Hurl & Htype & Hdata & _)
  end.
  eexists. exists settings. split; [reflexivity|]. split; [exact Hsent|].
  split; [exact Htype|]. split; [exact Hdata|]. exact Hurl.
Qed.

(** X3.  For every resource, the query string [getAll] builds from a
    non-empty list of names and a query without [&] decodes to two
    parameters: [expand], whose value is the names joined with commas, and
    [query], whose value is the query with its percent escapes decoded. *)
Theorem getAll_decoded_parameters (base : string)
    (getAll : S -> JsVal -> JsVal -> Result Call)
    (s : S) (items : list string) (query : string) :
  In (base, getAll) getAll_clients ->
  items <> [] ->
  occurs "&" query = false ->
  exists call settings qs,
    getAll s (JArr (map JStr items)) (JStr query) = Ok call
    /\ sent call = Some settings
    /\ url settings = "/api/" +:+ base +:+ "?" +:+ qs
    /\ decode_query qs
       = [("expand"%string, join "," items); ("query"%string, percent_decode query)].
Proof.
  intros Hin Hitems Hquery. rewrite (getAll_clients_unfold _ _ Hin).
  assert (Hcall : getAllObjects s base (JArr (map JStr items)) (JStr query)
                  = Ok (fetch s "get"
                          (base +:+ "?"
                           +:+ ("expand=" +:+ join "," (map encodeURIComponent items))
                           +:+ String "&" ("query=" +:+ query))
                          JUndefined JUndefined)).
  { unfold getAllObjects. rewrite <- makeExpansionString_strings.
    destruct items; [contradiction|]. reflexivity. }
  rewrite Hcall.
  match goal with
  | |- context [fetch s "get" ?p JUndefined JUndefined] =>
      destruct (fetch_default_sent s "get" p JUndefined)
        as (settings & Hsent & Hurl & _)
  end.
  eexists. exists settings. eexists. split; [reflexivity|]. split; [exact Hsent|].
  split; [exact Hurl|].
  unfold decode_query. rewrite split_at_app.
  - rewrite split_at_no_sep by exact Hquery.
    change (map _ [?a; ?b]) with
      [(percent_decode "expand",
        percent_decode (join "," (map encodeURIComponent items)));
       (percent_decode "query", percent_decode query)].
    rewrite percent_decode_join. reflexivity.
  - apply (occurs_join_encode "&"); reflexivity.
Qed.

End OptionalParameters.

(** [getAll] on the users with no list and the query [5] (a number) goes to
    [/api/users]; with the query [name] it goes to [/api/users?query=name]. *)
Lemma getAll_without_expand_witness :
  (exists call settings,
      Api.Users.getAll (backend := silent_backend) ([] : TokenStack) JNull (JNum 5)
      = Ok call
      /\ sent call = Some settings
      /\ type settings = "get"%string
      /\ data settings = JUndefined
      /\ url settings = "/api/users"%string)
  /\ (exists call settings,
        Api.Users.getAll (backend := silent_backend) ([] : TokenStack)
          (JArr []) (JStr "name") = Ok call
        /\ sent call = Some settings
        /\ type settings = "get"%string
        /\ data settings = JUndefined
        /\ url settings = "/api/users?query=name"%string).
Proof.
  split.
  - exact (getAll_without_expand (backend := silent_backend)
             "users" Api.Users.getAll ([] : TokenStack) JNull (JNum 5)
             (or_introl eq_refl) (or_intror (or_introl eq_refl))).
  - exact (getAll_without_expand (backend := silent_backend)
             "users" Api.Users.getAll ([] : TokenStack) (JArr []) (JStr "name")
             (or_introl eq_refl) (or_intror (or_intror eq_refl))).
Defined.

(** The names [owner] and [a,b] with the query [x%3Dy]: the server reads
    the expand value [owner,a,b] and the query [x=y]. *)
Lemma getAll_decoded_parameters_witness :
  exists call settings qs,
    Api.Users.getAll (backend := silent_backend) ([] : TokenStack)
      (JArr [JStr "owner"; JStr "a,b"]) (JStr "x%3Dy") = Ok call
    /\ sent call = Some settings
    /\ url settings = "/api/users?" +:+ qs
    /\ decode_query qs = [("expand"%string, "owner,a,b"%string);
                          ("query"%string, "x=y"%string)].
Proof.
  refine (getAll_decoded_parameters (backend := silent_backend)
            "users" Api.Users.getAll ([] : TokenStack)
            ["owner"; "a,b"]%string "x%3Dy" (or_introl eq_refl) _ eq_refl).
  discriminate.
Defined.

Section GetById.
Context {S : Type} {store : TokenStore S} {backend : Backend}.

(** X4.  [Users.getById(user_id, expand)]: with [expand] omitted or an
    empty array the request goes to [users/] followed by the identifier; with
    a non-empty array of names, [?expand=] and the expansion string follow;
    with [expand] [null] the call throws a [TypeError] before any request,
    [getById] lacking the test for [null] that [getAllObjects] makes. *)
Theorem getById_expand (s : S) (user_id : JsVal) :
  (forall expand,
      expand = JUndefined \/ expand = JArr [] ->
      exists call settings,
        Api.Users.getById s user_id expand = Ok call
        /\ sent call = Some settings
        /\ type settings = "get"%string
        /\ url settings = "/api/users/" +:+ to_string user_id)
  /\ (forall items,
        items <> [] ->
        exists call settings,
          Api.Users.getById s user_id (JArr (map JStr items)) = Ok call
          /\ sent call = Some settings
          /\ type settings = "get"%string
          /\ url settings
             = "/api/users/" +:+ to_string user_id +:+ "?expand="
               +:+ join "," (map encodeURIComponent items))
  /\ (exists message,
        Api.Users.getById s user_id JNull = Throw (TypeError message))
  /\ (forall query,
        exists call, Api.Users.getAll s JNull query = Ok call).
Proof.
  split; [|split; [|split]].
  - intros expand Hexpand.
    assert (Hcall : Api.Users.getById s user_id expand
                    = Ok (fetch s "get" (concat "users/" user_id +:+ EmptyString)
                            JUndefined JUndefined)).
    { destruct Hexpand as [-> | ->]; reflexivity. }
    rewrite Hcall, append_empty_r.
    destruct (fetch_default_sent s "get" (concat "users/" user_id) JUndefined)
      as (settings & Hsent & Hurl & Htype & _).
    eexists. exists settings. split; [reflexivity|]. split; [exact Hsent|].
    split; [exact Htype|]. exact Hurl.
  - intros items Hitems.
    assert (Hcall : Api.Users.getById s user_id (JArr (map JStr items))
                    = Ok (fetch s "get"
                            (concat "users/" user_id
                             +:+ "?expand=" +:+ join "," (map encodeURIComponent items))
                            JUndefined JUndefined)).
    { unfold Api.Users.getById. rewrite <- makeExpansionString_strings.
      destruct items; [contradiction|]. reflexivity. }
    rewrite Hcall.
    match goal with
    | |- context [fetch s "get" ?p JUndefined JUndefined] =>
        destruct (fetch_default_sent s "get" p JUndefined)
          as (settings & Hsent & Hurl & Htype & _)
    end.
    eexists. exists settings. split; [reflexivity|]. split; [exact Hsent|].
    split; [exact Htype|]. rewrite Hurl. unfold concat.
    rewrite append_assoc. reflexivity.
  - eexists. reflexivity.
  - intros query. eexists. reflexivity.
Qed.

End GetById.

(** [getById(7, ['owner', 'a b'])] asks for [/api/users/7?expand=owner,a%20b]. *)
Lemma getById_expand_witness :
  exists call settings,
    Api.Users.getById (backend := silent_backend) ([] : TokenStack) (JNum 7)
      (JArr [JStr "owner"; JStr "a b"]) = Ok call
    /\ sent call = Some settings
    /\ type settings = "get"%string
    /\ url settings = "/api/users/7?expand=owner,a%20b"%string.
Proof.
  refine (proj1 (proj2 (getById_expand (backend := silent_backend)
                          ([] : TokenStack) (JNum 7)))
                ["owner"; "a b"]%string _).
  discriminate.
Defined.

(** ** The dispatcher: what every request has (lines 38-65) *)

Lemma js_or_truthy (a b : JsVal) : truthy b = true -> truthy (js_or a b) = true.
Proof. intros Hb. unfold js_or. destruct (truthy a) eqn:Ha; assumption. Qed.

Lemma bearer_prefix (token : JsVal) (authorization : string) :
  bearer token = Ok authorization ->
  exists credential, authorization = "Bearer " +:+ credential.
Proof.
  unfold bearer. destruct (truthy token).
  - destruct (js_get token "t") as [t|]; simpl; [|discriminate].
    intros [= <-]. eexists. reflexivity.
  - intros [= <-]. eexists. reflexivity.
Qed.

Section Requests.
Context {S : Type} {store : TokenStore S} {backend : Backend}.

(** X5.  Whatever the options, the body of a request [fetch] sends is
    never an object: data whose [typeof] is [object] (objects, arrays, forms
    and [null]) is sent as its JSON text, and any other data (a string, a
    number, [undefined]) is sent as it is. *)
Theorem fetch_body_never_object (s : S) (verb path : string) (body options : JsVal)
    (settings : AjaxSettings) :
  sent (fetch s verb path body options) = Some settings ->
  typeof (data settings) <> "object"%string
  /\ (typeof body = "object"%string ->
      exists text, json_text body = Some text /\ data settings = JStr text)
  /\ (typeof body <> "object"%string -> data settings = body).
Proof.
  intros Hsent. rewrite (fetch_data_sent _ _ _ _ _ _ Hsent).
  destruct (String.eqb_spec (typeof body) "object") as [Hobj|Hobj].
  - destruct (typeof_JSON_stringify body Hobj) as [t Ht]. rewrite Ht.
    split; [discriminate|]. split; [|contradiction].
    intros _. exists t. split; [|reflexivity].
    unfold JSON_stringify in Ht. destruct (json_text body); [|discriminate].
    injection Ht as ->. reflexivity.
  - split; [exact Hobj|]. split; [contradiction | reflexivity].
Qed.

(** X6.  Every request [fetch] sends goes to [/api/] followed by the path,
    with the verb it was given, expects JSON, is cross-domain with
    credentials, and carries one header, [Authorization], whose value starts
    with [Bearer ].  Its timeout, its content type and [processData] are
    never falsy: a timeout of 0 or an empty content type in the options is
    replaced by the default. *)
Theorem fetch_request_invariants (s : S) (verb path : string) (body options : JsVal)
    (settings : AjaxSettings) :
  sent (fetch s verb path body options) = Some settings ->
  url settings = "/api/" +:+ path
  /\ type settings = verb
  /\ dataType settings = "json"%string
  /\ crossDomain settings = true
  /\ withCredentials settings = true
  /\ (exists credential,
         requestHeaders settings
         = [("Authorization"%string, "Bearer " +:+ credential)])
  /\ truthy (timeout settings) = true
  /\ truthy (contentType settings) = true
  /\ truthy (processData settings) = true.
Proof.
  rewrite sent_fetch. unfold fetch_settings.
  destruct (js_get (js_or options (JObj [])) "contentType") as [ct|];
    simpl; [|discriminate].
  destruct (if String.eqb (typeof ct) "undefined" then mret true
            else match ct with
                 | JStr c => mret (match_json_im c)
                 | _ => Throw (TypeError "options.contentType.match is not a function")
                 end) as [json|]; simpl; [|discriminate].
  destruct (js_get (js_or options (JObj [])) "processData") as [pd|];
    simpl; [|discriminate].
  destruct (js_get (js_or options (JObj [])) "timeout") as [tm|];
    simpl; [|discriminate].
  destruct (bearer (getTopToken s)) as [a|] eqn:Ha; simpl; [|discriminate].
  intros [= <-]. simpl. do 5 (split; [reflexivity|]).
  split.
  { destruct (bearer_prefix _ _ Ha) as [credential ->]. eexists. reflexivity. }
  split; [destruct (truthy tm) eqn:Htm; [exact Htm | reflexivity]|].
  split; apply js_or_truthy; reflexivity.
Qed.

(** X7.  [fetch] sends a request exactly when the content type in the
    options is absent or a string.  With any other content type (a number,
    [null], an object) nothing is sent, and the promise is rejected with a
    [TypeError], not with an [ApiError]. *)
Theorem fetch_sent_iff_contentType (s : S) (verb path : string) (body options : JsVal) :
  exists content_type,
    js_get (js_or options (JObj [])) "contentType" = Ok content_type
    /\ ((content_type = JUndefined \/ exists c, content_type = JStr c) ->
        exists settings, sent (fetch s verb path body options) = Some settings)
    /\ (~ (content_type = JUndefined \/ exists c, content_type = JStr c) ->
        sent (fetch s verb path body options) = None
        /\ exists message,
             promise (fetch s verb path body options) = Rejected (TypeError message)).
Proof.
  assert (Hopt : truthy (js_or options (JObj [])) = true) by (apply js_or_truthy; reflexivity).
  destruct (js_get_truthy _ "contentType" Hopt) as [ct Hct].
  destruct (js_get_truthy _ "processData" Hopt) as [pd Hpd].
  destruct (js_get_truthy _ "timeout" Hopt) as [tm Htm].
  destruct (bearer_total (getTopToken s)) as [a Ha].
  exists ct. split; [exact Hct|]. split.
  - intros Hstring.
    assert (Hs : exists settings, fetch_settings s verb path body options = Ok settings).
    { unfold fetch_settings. rewrite Hct, Hpd, Htm, Ha.
      destruct Hstring as [-> | [c ->]]; simpl; eexists; reflexivity. }
    destruct Hs as [settings Hs]. exists settings. apply sent_fetch. exact Hs.
  - intros Hother.
    assert (Hs : exists message,
               fetch_settings s verb path body options = Throw (TypeError message)).
    { unfold fetch_settings. rewrite Hct.
      destruct ct; simpl; try (eexists; reflexivity).
      - exfalso. apply Hother. left. reflexivity.
      - exfalso. apply Hother. right. eexists. reflexivity. }
    destruct Hs as [message Hs]. unfold fetch. rewrite Hs. simpl.
    split; [reflexivity|]. exists message. reflexivity.
Qed.

End Requests.

(** [upload] sends a form: the body of the request is a string. *)
Lemma fetch_body_never_object_witness :
  exists settings,
    sent (upload (backend := silent_backend) ([] : TokenStack) "nginx/dead-hosts/1/certificates"
            (JFormData [("certificate"%string, "pem"%string)])) = Some settings
    /\ typeof (data settings) <> "object"%string.
Proof.
  eexists. split; [reflexivity|].
  exact (proj1 (fetch_body_never_object (backend := silent_backend)
                  ([] : TokenStack) "post" "nginx/dead-hosts/1/certificates"
                  (JFormData [("certificate"%string, "pem"%string)])
                  (JObj [("contentType"%string, JStr "multipart/form-data");
                         ("processData"%string, JBool false)])
                  _ eq_refl)).
Defined.

(** A call that asks for the timeout 0 is sent with a timeout that is not
    falsy. *)
Lemma fetch_request_invariants_witness :
  exists settings,
    sent (fetch (backend := silent_backend) ([JStr "abc"] : TokenStack) "get" "users"
            JUndefined (JObj [("timeout"%string, JNum 0)])) = Some settings
    /\ url settings = "/api/users"%string
    /\ timeout settings = JNum 15000
    /\ truthy (timeout settings) = true.
Proof.
  eexists. split; [reflexivity|]. split; [reflexivity|]. split; [reflexivity|].
  exact (proj1 (proj2 (proj2 (proj2 (proj2 (proj2 (proj2
           (fetch_request_invariants (backend := silent_backend)
              ([JStr "abc"] : TokenStack) "get" "users" JUndefined
              (JObj [("timeout"%string, JNum 0)]) _ eq_refl)))))))).
Defined.

(** With the content type 5 nothing is sent. *)
Lemma fetch_sent_iff_contentType_witness :
  sent (fetch (backend := silent_backend) ([] : TokenStack) "post" "users" (JObj [])
          (JObj [("contentType"%string, JNum 5)])) = None.
Proof.
  destruct (fetch_sent_iff_contentType (backend := silent_backend)
              ([] : TokenStack) "post" "users" (JObj [])
              (JObj [("contentType"%string, JNum 5)]))
    as (ct & Hct & _ & Hother).
  apply Hother. injection Hct as <-.
  intros [Hundef | [c Hstr]]; discriminate.
Defined.

(** ** The callbacks (lines 67-92) *)

Lemma parseInt_10_no_digit (s : string) (c : ascii) (rest : string) :
  skip_spaces s = String c rest ->
  is_digit c = false -> Ascii.eqb c "-" = false -> Ascii.eqb c "+" = false ->
  parseInt_10 (JStr s) = JNaN.
Proof.
  intros Hskip Hdigit Hminus Hplus. unfold parseInt_10. simpl to_string.
  rewrite Hskip, Hminus, Hplus. cbn [leading_digits]. rewrite Hdigit. reflexivity.
Qed.

(** X8.  The [error] callback never resolves the promise.  It throws, and
    leaves the promise pending, exactly when the JSON body of the response is
    [null] or has an [error] field that is [null]; in every other case it
    rejects with an [ApiError] whose [debug] is the response text and whose
    [code] is never falsy. *)
Theorem error_outcome (xhr : JqXHR) (textStatus : string) (error_thrown : JsVal) :
  ((responseJSON xhr = JNull \/ js_get (responseJSON xhr) "error" = Ok JNull) ->
   exists message, error xhr textStatus error_thrown = Uncaught (TypeError message))
  /\ (~ (responseJSON xhr = JNull \/ js_get (responseJSON xhr) "error" = Ok JNull) ->
      exists message code,
        error xhr textStatus error_thrown
        = Rejected (ApiError message (responseText xhr) code)
        /\ truthy code = true).
Proof.
  split.
  - intros [Hnull | Hnull]; unfold error, error_message_code.
    + rewrite Hnull. eexists. reflexivity.
    + destruct (responseJSON xhr) as [| | | | | |items|props| |]; try discriminate.
      rewrite Hnull. eexists. reflexivity.
  - intros Hnot. rewrite error_rejects.
    + destruct (error_envelope (responseJSON xhr)) as [[m c]|].
      * eexists _, _. split; [reflexivity|].
        destruct (truthy c) eqn:Hc; [exact Hc | reflexivity].
      * eexists _, _. split; reflexivity.
    + intros Hnull. apply Hnot. left. exact Hnull.
    + intros Hnull. apply Hnot. right. exact Hnull.
Qed.

Section Pagination.
Context {S : Type} {store : TokenStore S} {backend : Backend}.

(** X9.  The header [X-Dataset-Total] alone decides the envelope: when it
    is present and the offset and limit headers are absent, the promise still
    resolves with the envelope, its [offset] and [limit] being [NaN]; and a
    total that, after its leading white space, starts with neither a digit nor
    a sign gives the [total] [NaN]. *)
Theorem fetch_success_missing_headers (s : S) (verb path : string)
    (body options : JsVal) (settings : AjaxSettings) (payload : JsVal)
    (textStatus : string) (response : JqXHR) (total : string) :
  sent (fetch s verb path body options) = Some settings ->
  ajax_reply settings = ReplySuccess payload textStatus response ->
  responseHeaders response "X-Dataset-Total" = Some total ->
  responseHeaders response "X-Dataset-Offset" = None ->
  responseHeaders response "X-Dataset-Limit" = None ->
  promise (fetch s verb path body options)
  = Resolved (RValue (JObj [
      ("data"%string, payload);
      ("pagination"%string, JObj [("total"%string, parseInt_10 (JStr total));
                                  ("offset"%string, JNaN);
                                  ("limit"%string, JNaN)])]))
  /\ (forall c rest,
        skip_spaces total = String c rest ->
        is_digit c = false ->
        Ascii.eqb c "-" = false -> Ascii.eqb c "+" = false ->
        parseInt_10 (JStr total) = JNaN).
Proof.
  intros Hsent Hreply Htotal Hoffset Hlimit.
  rewrite (promise_fetch _ _ _ _ _ _ Hsent), Hreply.
  unfold success, getResponseHeader. rewrite Htotal, Hoffset, Hlimit. simpl.
  split; [reflexivity|].
  intros c rest Hskip Hdigit Hminus Hplus.
  apply (parseInt_10_no_digit total c rest); assumption.
Qed.

End Pagination.

(** A body that is the JSON [null] leaves the promise pending; the body
    [{ error: {} }] rejects with the error text of the transport and the
    code 400. *)
Lemma error_outcome_witness :
  (exists message,
      error (json_reply JNull) "error" (JStr "Bad Gateway")
      = Uncaught (TypeError message))
  /\ (exists message code,
        error (json_reply (JObj [("error"%string, JObj [])])) "error" (JStr "Bad Gateway")
        = Rejected (ApiError message
                      (responseText (json_reply (JObj [("error"%string, JObj [])]))) code)
        /\ truthy code = true).
Proof.
  split.
  - exact (proj1 (error_outcome (json_reply JNull) "error" (JStr "Bad Gateway"))
                 (or_introl eq_refl)).
  - apply (proj2 (error_outcome (json_reply (JObj [("error"%string, JObj [])]))
                    "error" (JStr "Bad Gateway"))).
    intros [Hnull | Hnull]; discriminate.
Defined.

(** With the total [many] and no other header, the three numbers are
    [NaN]. *)
Lemma fetch_success_missing_headers_witness :
  promise (fetch (backend := fixed_backend
                    (ReplySuccess (JArr []) "success" total_only_response) [])
                 ([] : TokenStack) "get" "users" JUndefined JUndefined)
  = Resolved (RValue (JObj [
      ("data"%string, JArr []);
      ("pagination"%string, JObj [("total"%string, JNaN);
                                  ("offset"%string, JNaN);
                                  ("limit"%string, JNaN)])]))
  /\ parseInt_10 (JStr "many") = JNaN.
Proof.
  split.
  - exact (proj1 (fetch_success_missing_headers
                    (backend := fixed_backend
                       (ReplySuccess (JArr []) "success" total_only_response) [])
                    ([] : TokenStack) "get" "users" JUndefined JUndefined
                    _ (JArr []) "success" total_only_response "many"
                    eq_refl eq_refl eq_refl eq_refl eq_refl)).
  - exact (proj2 (fetch_success_missing_headers
                    (backend := fixed_backend
                       (ReplySuccess (JArr []) "success" total_only_response) [])
                    ([] : TokenStack) "get" "users" JUndefined JUndefined
                    _ (JArr []) "success" total_only_response "many"
                    eq_refl eq_refl eq_refl eq_refl eq_refl)
                 "m"%char "any"%string eq_refl eq_refl eq_refl eq_refl).
Defined.

(** ** [update]: objects without identifier (lines 247-251 and its copies) *)

Lemma delete_prop_absent (name : string) (props : list (string * JsVal)) :
  lookup_prop name props = None -> delete_prop name props = props.
Proof.
  unfold delete_prop. induction props as [|[k v] props IH]; [reflexivity|].
  cbn [lookup_prop List.filter fst].
  destruct (String.eqb k name); [discriminate|]. intros Hrest. cbn [negb].
  rewrite (IH Hrest). reflexivity.
Qed.

Section UpdateEdges.
Context {S : Type} {store : TokenStore S} {backend : Backend}.

(** The step shared by the updates of an object that has no [id] (any
    more): the heap is as it was and the request goes to [undefined]. *)
Lemma update_no_id (base : string) (upd : Heap -> S -> loc -> Heap * Result Call)
    (h : Heap) (s : S) (obj : loc) (props : list (string * JsVal)) :
  In (base, upd) update_clients ->
  h !! obj = Some (JObj props) ->
  lookup_prop "id" props = None ->
  exists call settings,
    upd h s obj = (h, Ok call)
    /\ sent call = Some settings
    /\ type settings = "put"%string
    /\ url settings = "/api/" +:+ base +:+ "/undefined"
    /\ data settings = JSON_stringify (JObj props).
Proof.
  intros Hin Hobj Hid. rewrite (update_clients_unfold _ _ Hin).
  unfold deref at 1 2. rewrite Hobj. simpl. rewrite Hid. simpl.
  rewrite (delete_prop_absent _ _ Hid), (insert_id _ _ _ Hobj).
  unfold deref. rewrite Hobj. simpl.
  destruct (fetch_default_sent s "put" (concat (base +:+ "/") JUndefined) (JObj props))
    as (settings & Hsent & Hurl & Htype & Hdata & _).
  eexists. exists settings. split; [reflexivity|]. split; [exact Hsent|].
  split; [exact Htype|]. split; [|exact Hdata].
  rewrite Hurl. unfold concat. rewrite append_assoc. reflexivity.
Qed.

(** X10.  For every resource, [update(data)] on an object without a field
    [id] still sends a request: a [put] to the path of the resource followed
    by [/undefined], with the whole object as body, and the object is left as
    it was. *)
Theorem update_without_id (base : string)
    (upd : Heap -> S -> loc -> Heap * Result Call)
    (h : Heap) (s : S) (obj : loc) (props : list (string * JsVal)) :
  In (base, upd) update_clients ->
  h !! obj = Some (JObj props) ->
  lookup_prop "id" props = None ->
  exists call settings,
    upd h s obj = (h, Ok call)
    /\ sent call = Some settings
    /\ type settings = "put"%string
    /\ url settings = "/api/" +:+ base +:+ "/undefined"
    /\ data settings = JSON_stringify (JObj props).
Proof.
  intros Hin Hobj Hid. rewrite (update_clients_unfold _ _ Hin).
  unfold deref at 1 2. rewrite Hobj. simpl. rewrite Hid. simpl.
  rewrite (delete_prop_absent _ _ Hid), (insert_id _ _ _ Hobj).
  unfold deref. rewrite Hobj. simpl.
  destruct (fetch_default_sent s "put" (concat (base +:+ "/") JUndefined) (JObj props))
    as (settings & Hsent & Hurl & Htype & Hdata & _).
  eexists. exists settings. split; [reflexivity|]. split; [exact Hsent|].
  split; [exact Htype|]. split; [|exact Hdata].
  rewrite Hurl. unfold concat. rewrite append_assoc. reflexivity.
Qed.

(** X11.  An object can be updated once: after [update(data)], a second
    [update] of the same object, on any resource, finds no [id] and goes to
    the path followed by [/undefined], with the same body as the first. *)
Theorem update_twice (base1 base2 : string)
    (upd1 upd2 : Heap -> S -> loc -> Heap * Result Call)
    (h : Heap) (s : S) (obj : loc) (props : list (string * JsVal)) :
  In (base1, upd1) update_clients ->
  In (base2, upd2) update_clients ->
  h !! obj = Some (JObj props) ->
  let h1 := fst (upd1 h s obj) in
  exists call settings,
    upd2 h1 s obj = (h1, Ok call)
    /\ sent call = Some settings
    /\ url settings = "/api/" +:+ base2 +:+ "/undefined"
    /\ data settings = JSON_stringify (JObj (delete_prop "id" props)).
Proof.
  intros Hin1 Hin2 Hobj h1.
  assert (Hh1 : h1 !! obj = Some (JObj (delete_prop "id" props))).
  { subst h1. rewrite (update_clients_unfold _ _ Hin1).
    unfold deref at 1 2. rewrite Hobj. simpl. apply lookup_insert_eq. }
  destruct (update_no_id base2 upd2 h1 s obj _ Hin2 Hh1 (lookup_delete_prop "id" props))
    as (call & settings & Hcall & Hsent & _ & Hurl & Hdata).
  exists call, settings. repeat split; assumption.
Qed.

(** X12.  For every resource, [update] on [null], on [undefined] or on a
    location that holds no object throws a [TypeError] when it reads [id]:
    no request is sent and the heap is as it was. *)
Theorem update_on_null (base : string)
    (upd : Heap -> S -> loc -> Heap * Result Call)
    (h : Heap) (s : S) (obj : loc) :
  In (base, upd) update_clients ->
  deref h obj = JNull \/ deref h obj = JUndefined ->
  exists message, upd h s obj = (h, Throw (TypeError message)).
Proof.
  intros Hin Hnull. rewrite (update_clients_unfold _ _ Hin).
  destruct Hnull as [-> | ->]; eexists; reflexivity.
Qed.

End UpdateEdges.

(** [update({ name: 'x' })] on the streams goes to
    [/api/nginx/streams/undefined]. *)
Lemma update_without_id_witness :
  exists call settings,
    Api.Nginx.Streams.update (backend := silent_backend) anonymous_heap
      ([] : TokenStack) 1%positive = (anonymous_heap, Ok call)
    /\ sent call = Some settings
    /\ type settings = "put"%string
    /\ url settings = "/api/nginx/streams/undefined"%string
    /\ data settings = JSON_stringify (JObj [("name"%string, JStr "x")]).
Proof.
  exact (update_without_id (backend := silent_backend)
           "nginx/streams" Api.Nginx.Streams.update anonymous_heap ([] : TokenStack)
           1%positive [("name"%string, JStr "x")]
           (or_intror (or_intror (or_intror (or_introl eq_refl)))) eq_refl eq_refl).
Defined.

(** Updating the example object on the users and then again on the access
    lists sends the second request to [/api/access-lists/undefined]. *)
Lemma update_twice_witness :
  exists call settings,
    Api.AccessLists.update (backend := silent_backend)
      (fst (Api.Users.update (backend := silent_backend) example_heap
              ([] : TokenStack) 1%positive))
      ([] : TokenStack) 1%positive
    = (fst (Api.Users.update (backend := silent_backend) example_heap
              ([] : TokenStack) 1%positive), Ok call)
    /\ sent call = Some settings
    /\ url settings = "/api/access-lists/undefined"%string
    /\ data settings = JSON_stringify (JObj [("name"%string, JStr "x")]).
Proof.
  exact (update_twice (backend := silent_backend)
           "users" "access-lists" Api.Users.update Api.AccessLists.update
           example_heap ([] : TokenStack) 1%positive
           [("id"%string, JNum 5); ("name"%string, JStr "x")]
           (or_introl eq_refl)
           (or_intror (or_intror (or_intror (or_intror (or_intror (or_introl eq_refl))))))
           eq_refl).
Defined.

(** [update] on a location that holds nothing throws. *)
Lemma update_on_null_witness :
  exists message,
    Api.Users.update (backend := silent_backend) example_heap ([] : TokenStack) 2%positive
    = (example_heap, Throw (TypeError message)).
Proof.
  exact (update_on_null (backend := silent_backend)
           "users" Api.Users.update example_heap ([] : TokenStack) 2%positive
           (or_introl eq_refl) (or_intror eq_refl)).
Defined.

(** ** [login] and [refresh] against the dispatcher (lines 179-211) *)

(** A callback chained on the outcome of [error] never runs. *)
Lemma promise_then_error {S : Type} (xhr : JqXHR) (textStatus : string)
    (error_thrown : JsVal) (cb : JsVal -> S -> S * Result JsVal) (s : S) :
  promise_then (error xhr textStatus error_thrown) cb s
  = (s, error xhr textStatus error_thrown).
Proof.
  unfold error. destruct (error_message_code xhr error_thrown) as [[m c]|]; reflexivity.
Qed.

Section LoginReplies.
Context {S : Type} {store : TokenStore S} {backend : Backend}.

(** The request of [login] is always sent. *)
Lemma login_request (s : S) (identity secret : JsVal) :
  exists settings,
    sent (fetch s "post" "tokens"
            (JObj [("identity"%string, identity); ("secret"%string, secret)])
            JUndefined) = Some settings
    /\ url settings = "/api/tokens"%string
    /\ type settings = "post"%string
    /\ data settings
       = JSON_stringify (JObj [("identity"%string, identity); ("secret"%string, secret)]).
Proof.
  destruct (fetch_default_sent s "post" "tokens"
              (JObj [("identity"%string, identity); ("secret"%string, secret)]))
    as (settings & Hsent & Hurl & Htype & Hdata & _).
  exists settings. repeat split; assumption.
Qed.

(** X13.  [login] end to end: it posts the JSON text of [{ identity,
    secret }] to [/api/tokens]; when the reply succeeds without pagination
    header and the body received has a truthy [token], the store is cleared
    if [wipe] is truthy, the token is added and the promise resolves with
    it. *)
Theorem login_success_reply (s : S) (identity secret wipe : JsVal)
    (settings : AjaxSettings) (body : JsVal) (textStatus : string)
    (response : JqXHR) (token : JsVal) :
  sent (fetch s "post" "tokens"
          (JObj [("identity"%string, identity); ("secret"%string, secret)])
          JUndefined) = Some settings ->
  ajax_reply settings = ReplySuccess body textStatus response ->
  responseHeaders response "X-Dataset-Total" = None ->
  js_get (responseJSON response) "token" = Ok token ->
  truthy token = true ->
  url settings = "/api/tokens"%string
  /\ type settings = "post"%string
  /\ data settings
     = JSON_stringify (JObj [("identity"%string, identity); ("secret"%string, secret)])
  /\ Api.Tokens.login s identity secret wipe
     = (addToken token (if truthy wipe then clearTokens s else s),
        Resolved (RValue token)).
Proof.
  intros Hsent Hreply Htotal Htoken Htruthy.
  destruct (login_request s identity secret) as (settings' & Hsent' & Hurl & Htype & Hdata).
  rewrite Hsent in Hsent'. injection Hsent' as <-.
  do 3 (split; [assumption|]).
  unfold Api.Tokens.login. rewrite (promise_fetch _ _ _ _ _ _ Hsent), Hreply.
  unfold success, getResponseHeader. rewrite Htotal. simpl.
  unfold Api.Tokens.login_then. rewrite Htoken, Htruthy. reflexivity.
Qed.

(** X14.  When the reply to [login] or to [refresh] carries the header
    [X-Dataset-Total], the callback receives the pagination envelope, finds
    no [token] in it, clears the store and rejects, whatever the body
    holds. *)
Theorem login_paginated_reply (s : S) (identity secret wipe : JsVal) :
  (forall settings body textStatus response total,
      sent (fetch s "post" "tokens"
              (JObj [("identity"%string, identity); ("secret"%string, secret)])
              JUndefined) = Some settings ->
      ajax_reply settings = ReplySuccess body textStatus response ->
      responseHeaders response "X-Dataset-Total" = Some total ->
      Api.Tokens.login s identity secret wipe
      = (clearTokens s, Rejected (Error "No token returned")))
  /\ (forall settings body textStatus response total,
        sent (fetch s "get" "tokens" JUndefined JUndefined) = Some settings ->
        ajax_reply settings = ReplySuccess body textStatus response ->
        responseHeaders response "X-Dataset-Total" = Some total ->
        Api.Tokens.refresh s = (clearTokens s, Rejected (Error "No token returned"))).
Proof.
  split; intros settings body textStatus response total Hsent Hreply Htotal.
  - unfold Api.Tokens.login. rewrite (promise_fetch _ _ _ _ _ _ Hsent), Hreply.
    unfold success, getResponseHeader. rewrite Htotal. reflexivity.
  - unfold Api.Tokens.refresh. rewrite (promise_fetch _ _ _ _ _ _ Hsent), Hreply.
    unfold success, getResponseHeader. rewrite Htotal. reflexivity.
Qed.

(** X15.  When the request of [login] or of [refresh] fails, the store is
    left as it was, whatever [wipe] says, and the promise ends as the [error]
    callback of the dispatcher left it. *)
Theorem login_failed_request (s : S) (identity secret wipe : JsVal) :
  (forall settings xhr textStatus error_thrown,
      sent (fetch s "post" "tokens"
              (JObj [("identity"%string, identity); ("secret"%string, secret)])
              JUndefined) = Some settings ->
      ajax_reply settings = ReplyError xhr textStatus error_thrown ->
      Api.Tokens.login s identity secret wipe = (s, error xhr textStatus error_thrown))
  /\ (forall settings xhr textStatus error_thrown,
        sent (fetch s "get" "tokens" JUndefined JUndefined) = Some settings ->
        ajax_reply settings = ReplyError xhr textStatus error_thrown ->
        Api.Tokens.refresh s = (s, error xhr textStatus error_thrown)).
Proof.
  split; intros settings xhr textStatus error_thrown Hsent Hreply.
  - unfold Api.Tokens.login. rewrite (promise_fetch _ _ _ _ _ _ Hsent), Hreply.
    apply promise_then_error.
  - unfold Api.Tokens.refresh. rewrite (promise_fetch _ _ _ _ _ _ Hsent), Hreply.
    apply promise_then_error.
Qed.

End LoginReplies.

(** [login] with [wipe] on a store that holds [old], answered with the body
    [{ token: 'abc' }]. *)
Lemma login_success_reply_witness :
  Api.Tokens.login (backend := success_backend (JObj [("token"%string, JStr "abc")]))
    ([JStr "old"] : TokenStack) (JStr "admin") (JStr "secret") (JBool true)
  = ([JStr "abc"], Resolved (RValue (JStr "abc"))).
Proof.
  exact (proj2 (proj2 (proj2
           (login_success_reply
              (backend := success_backend (JObj [("token"%string, JStr "abc")]))
              ([JStr "old"] : TokenStack) (JStr "admin") (JStr "secret") (JBool true)
              _ (JObj [("token"%string, JStr "abc")]) "success"
              (json_reply (JObj [("token"%string, JStr "abc")])) (JStr "abc")
              eq_refl eq_refl eq_refl eq_refl eq_refl)))).
Defined.

(** The same body with pagination headers: [login] without [wipe] empties
    the store and rejects. *)
Lemma login_paginated_reply_witness :
  Api.Tokens.login (backend := paginated_token_backend)
    ([JStr "old"] : TokenStack) (JStr "admin") (JStr "secret") (JBool false)
  = ([], Rejected (Error "No token returned")).
Proof.
  exact (proj1 (login_paginated_reply (backend := paginated_token_backend)
                  ([JStr "old"] : TokenStack) (JStr "admin") (JStr "secret")
                  (JBool false))
               _ (JObj [("token"%string, JStr "abc")]) "success" _ "42"%string
               eq_refl eq_refl eq_refl).
Defined.

(** A login refused with the body [{ error: { message: 'Bad input', code:
    422 } }] keeps the token [old] in the store. *)
Lemma login_failed_request_witness :
  Api.Tokens.login (backend := failure_backend (bad_input (JNum 422)))
    ([JStr "old"] : TokenStack) (JStr "admin") (JStr "secret") (JBool true)
  = ([JStr "old"],
     Rejected (ApiError "Bad input" (JSON_stringify (bad_input (JNum 422))) (JNum 422))).
Proof.
  exact (proj1 (login_failed_request (backend := failure_backend (bad_input (JNum 422)))
                  ([JStr "old"] : TokenStack) (JStr "admin") (JStr "secret")
                  (JBool true))
               _ (json_reply (bad_input (JNum 422))) "error" (JStr "Unauthorized")
               eq_refl eq_refl).
Defined.

(** ** The raw upload before completion (lines 154-162) *)

Lemma settle_first_pending (events : list Xhr) :
  Forall (fun x => readyState x <> DONE) events -> settle_first events = Pending.
Proof.
  intros Hevents. induction Hevents as [|x events Hx _ IH]; [reflexivity|].
  simpl. unfold onreadystatechange at 1.
  destruct (Z.eqb_spec (readyState x) DONE) as [Heq|_]; [contradiction | exact IH].
Qed.

Section RawUploadPending.
Context {S : Type} {store : TokenStore S} {backend : Backend}.

(** X16.  As long as no event shows the request done, the promise of
    [FileUpload] is neither resolved nor rejected, whatever status and text
    the events show. *)
Theorem FileUpload_pending (s : S) (path : string) (fd : JsVal) :
  exists request,
    upload_sent (FileUpload s path fd) = Some request
    /\ (Forall (fun x => readyState x <> DONE) (xhr_events request) ->
        upload_promise (FileUpload s path fd) = Pending).
Proof.
  destruct (FileUpload_sent s path fd) as (a & _ & ->). cbv zeta. simpl.
  eexists. split; [reflexivity|]. apply settle_first_pending.
Qed.

End RawUploadPending.

(** An upload that has received headers and part of the text with the
    status 200 is still pending. *)
Lemma FileUpload_pending_witness :
  upload_promise
    (FileUpload (backend := fixed_backend
                   (ReplyError (json_response EmptyString JUndefined) "error" JUndefined)
                   (firstn 2 (upload_events 200 "ok")))
                ([] : TokenStack) "nginx/proxy-hosts/1/certificates" (JFormData []))
  = Pending.
Proof.
  destruct (FileUpload_pending
              (backend := fixed_backend
                 (ReplyError (json_response EmptyString JUndefined) "error" JUndefined)
                 (firstn 2 (upload_events 200 "ok")))
              ([] : TokenStack) "nginx/proxy-hosts/1/certificates"%string (JFormData []))
    as (request & _ & Hpending).
  apply Hpending. repeat constructor; simpl; unfold DONE; lia.
Defined.

(** ** [create], [delete] and the [setCerts] that use [upload] *)

Section SimpleClients.
Context {S : Type} {store : TokenStore S} {backend : Backend}.

(** X17.  For every resource, [create(data)] posts to the path of the
    resource the JSON text of the object it is given, its [id] included if it
    has one, and [delete(id)] sends a [delete] request without body to the
    path followed by [/] and the identifier. *)
Theorem create_delete_requests :
  (forall base create,
      In (base, create) create_clients ->
      forall (s : S) (props : list (string * JsVal)),
      exists settings,
        sent (create s (JObj props)) = Some settings
        /\ type settings = "post"%string
        /\ url settings = "/api/" +:+ base
        /\ data settings = JSON_stringify (JObj props))
  /\ (forall base del,
        In (base, del) delete_clients ->
        forall (s : S) (id : JsVal),
        exists settings,
          sent (del s id) = Some settings
          /\ type settings = "delete"%string
          /\ url settings = "/api/" +:+ base +:+ "/" +:+ to_string id
          /\ data settings = JUndefined).
Proof.
  split.
  - intros base create Hin s props.
    assert (Hcreate : create s (JObj props) = fetch s "post" base (JObj props) JUndefined).
    { simpl in Hin. repeat (destruct Hin as [[= <- <-]|Hin]; [reflexivity|]).
      contradiction. }
    rewrite Hcreate.
    destruct (fetch_default_sent s "post" base (JObj props))
      as (settings & Hsent & Hurl & Htype & Hdata & _).
    exists settings. repeat split; assumption.
  - intros base del Hin s id.
    assert (Hdel : del s id
                   = fetch s "delete" (concat (base +:+ "/") id) JUndefined JUndefined).
    { simpl in Hin. repeat (destruct Hin as [[= <- <-]|Hin]; [reflexivity|]).
      contradiction. }
    rewrite Hdel.
    destruct (fetch_default_sent s "delete" (concat (base +:+ "/") id) JUndefined)
      as (settings & Hsent & Hurl & Htype & Hdata & _).
    exists settings. split; [exact Hsent|]. split; [exact Htype|].
    split; [|exact Hdata]. rewrite Hurl. unfold concat. rewrite append_assoc. reflexivity.
Qed.

(** X18.  The [setCerts] of the redirection hosts and of the dead hosts
    post to the path of the resource followed by the identifier and
    [/certificates], under the content type [multipart/form-data]; the body
    they send for a form is the text [{}], the same for every form. *)
Theorem setCerts_through_upload (base : string)
    (setCerts : S -> JsVal -> JsVal -> Call) (s : S) (id : JsVal)
    (entries : list (string * string)) :
  In (base, setCerts) upload_setCerts_clients ->
  exists settings,
    sent (setCerts s id (JFormData entries)) = Some settings
    /\ type settings = "post"%string
    /\ url settings = "/api/" +:+ base +:+ "/" +:+ to_string id +:+ "/certificates"
    /\ contentType settings = JStr "multipart/form-data"
    /\ data settings = JStr "{}"
    /\ sent (setCerts s id (JFormData [])) = Some settings.
Proof.
  intros Hin.
  assert (Hcerts : forall form,
             setCerts s id form
             = upload s (concat (base +:+ "/") id +:+ "/certificates") form).
  { intros form. simpl in Hin.
    repeat (destruct Hin as [[= <- <-]|Hin]; [reflexivity|]). contradiction. }
  rewrite !Hcerts.
  destruct (upload_settings s (concat (base +:+ "/") id +:+ "/certificates")
              (JFormData entries)) as (a & Ha & Hsent).
  destruct (upload_settings s (concat (base +:+ "/") id +:+ "/certificates")
              (JFormData [])) as (a' & Ha' & Hsent').
  rewrite Ha in Ha'. injection Ha' as <-.
  eexists. split; [exact Hsent|]. simpl. split; [reflexivity|].
  split; [|split; [reflexivity|split; [reflexivity | exact Hsent']]].
  unfold concat. rewrite !append_assoc. reflexivity.
Qed.

End SimpleClients.

(** [create({ id: 5, name: 'x' })] on the users posts the whole object;
    [delete(5)] goes to [/api/users/5]. *)
Lemma create_delete_requests_witness :
  (exists settings,
      sent (Api.Users.create (backend := silent_backend) ([] : TokenStack) example_object)
      = Some settings
      /\ type settings = "post"%string
      /\ url settings = "/api/users"%string
      /\ data settings = JSON_stringify example_object)
  /\ (exists settings,
        sent (Api.Users.delete (backend := silent_backend) ([] : TokenStack) (JNum 5))
        = Some settings
        /\ type settings = "delete"%string
        /\ url settings = "/api/users/5"%string
        /\ data settings = JUndefined).
Proof.
  split.
  - exact (proj1 (create_delete_requests (backend := silent_backend))
                 "users"%string Api.Users.create (or_introl eq_refl)
                 ([] : TokenStack) [("id"%string, JNum 5); ("name"%string, JStr "x")]).
  - exact (proj2 (create_delete_requests (backend := silent_backend))
                 "users"%string Api.Users.delete (or_introl eq_refl)
                 ([] : TokenStack) (JNum 5)).
Defined.

(** The certificates of the dead host 3. *)
Lemma setCerts_through_upload_witness :
  exists settings,
    sent (Api.Nginx.DeadHosts.setCerts (backend := silent_backend) ([] : TokenStack)
            (JNum 3) (JFormData [("certificate"%string, "pem"%string)])) = Some settings
    /\ type settings = "post"%string
    /\ url settings = "/api/nginx/dead-hosts/3/certificates"%string
    /\ contentType settings = JStr "multipart/form-data"
    /\ data settings = JStr "{}"
    /\ sent (Api.Nginx.DeadHosts.setCerts (backend := silent_backend) ([] : TokenStack)
               (JNum 3) (JFormData [])) = Some settings.
Proof.
  exact (setCerts_through_upload (backend := silent_backend)
           "nginx/dead-hosts" Api.Nginx.DeadHosts.setCerts ([] : TokenStack) (JNum 3)
           [("certificate"%string, "pem"%string)] (or_intror (or_introl eq_refl))).
Defined.

Section SubResources.
Context {S : Type} {store : TokenStore S} {backend : Backend}.

(** X19.  The remaining operations are single requests: [setPassword] and
    [setPermissions] put the JSON text of their object to [users/], the
    identifier and [/auth] or [/permissions]; [loginAs] posts to
    [users/<id>/login], [status] gets the root of the API and
    [getHostStats] gets [reports/hosts], these three without body. *)
Theorem single_requests (s : S) (id : JsVal) (props : list (string * JsVal)) :
  (exists settings,
      sent (Api.Users.setPassword s id (JObj props)) = Some settings
      /\ type settings = "put"%string
      /\ url settings = "/api/users/" +:+ to_string id +:+ "/auth"
      /\ data settings = JSON_stringify (JObj props))
  /\ (exists settings,
        sent (Api.Users.setPermissions s id (JObj props)) = Some settings
        /\ type settings = "put"%string
        /\ url settings = "/api/users/" +:+ to_string id +:+ "/permissions"
        /\ data settings = JSON_stringify (JObj props))
  /\ (exists settings,
        sent (Api.Users.loginAs s id) = Some settings
        /\ type settings = "post"%string
        /\ url settings = "/api/users/" +:+ to_string id +:+ "/login"
        /\ data settings = JUndefined)
  /\ (exists settings,
        sent (Api.status s) = Some settings
        /\ type settings = "get"%string
        /\ url settings = "/api/"%string
        /\ data settings = JUndefined)
  /\ (exists settings,
        sent (Api.Reports.getHostStats s) = Some settings
        /\ type settings = "get"%string
        /\ url settings = "/api/reports/hosts"%string
        /\ data settings = JUndefined).
Proof.
  split; [|split; [|split; [|split]]].
  - destruct (fetch_default_sent s "put" (concat "users/" id +:+ "/auth") (JObj props))
      as (settings & Hsent & Hurl & Htype & Hdata & _).
    exists settings. split; [exact Hsent|]. split; [exact Htype|].
    split; [|exact Hdata]. rewrite Hurl. unfold concat.
    rewrite append_assoc. reflexivity.
  - destruct (fetch_default_sent s "put" (concat "users/" id +:+ "/permissions")
                (JObj props)) as (settings & Hsent & Hurl & Htype & Hdata & _).
    exists settings. split; [exact Hsent|]. split; [exact Htype|].
    split; [|exact Hdata]. rewrite Hurl. unfold concat.
    rewrite append_assoc. reflexivity.
  - destruct (fetch_default_sent s "post" (concat "users/" id +:+ "/login") JUndefined)
      as (settings & Hsent & Hurl & Htype & Hdata & _).
    exists settings. split; [exact Hsent|]. split; [exact Htype|].
    split; [|exact Hdata]. rewrite Hurl. unfold concat.
    rewrite append_assoc. reflexivity.
  - destruct (fetch_default_sent s "get" EmptyString JUndefined)
      as (settings & Hsent & Hurl & Htype & Hdata & _).
    exists settings. split; [exact Hsent|]. split; [exact Htype|].
    split; [exact Hurl | exact Hdata].
  - destruct (fetch_default_sent s "get" "reports/hosts" JUndefined)
      as (settings & Hsent & Hurl & Htype & Hdata & _).
    exists settings. split; [exact Hsent|]. split; [exact Htype|].
    split; [exact Hurl | exact Hdata].
Qed.

(** X20.  A top token without a field [t] is sent as [Bearer undefined],
    by [fetch] and by [FileUpload] alike. *)
Theorem authorization_without_t (s : S) (props : list (string * JsVal)) :
  getTopToken s = JObj props ->
  lookup_prop "t" props = None ->
  (forall verb path body options settings,
      sent (fetch s verb path body options) = Some settings ->
      requestHeaders settings = [("Authorization"%string, "Bearer undefined"%string)])
  /\ (forall path fd,
        exists request,
          upload_sent (FileUpload s path fd) = Some request
          /\ xhr_headers request = [("Authorization"%string, "Bearer undefined"%string)]).
Proof.
  intros Htoken Ht. split.
  - intros verb path body options settings Hsent.
    destruct (fetch_authorization _ _ _ _ _ _ Hsent) as (a & Ha & ->).
    rewrite Htoken, bearer_object, Ht in Ha. injection Ha as <-. reflexivity.
  - intros path fd. destruct (FileUpload_sent s path fd) as (a & Ha & ->).
    rewrite Htoken, bearer_object, Ht in Ha. injection Ha as <-.
    eexists. split; reflexivity.
Qed.

End SubResources.

(** A token that has a name and no [t]. *)
Lemma authorization_without_t_witness :
  option_map requestHeaders
    (sent (fetch (store := blank_token_store) (backend := silent_backend) tt
             "get" "users" JUndefined JUndefined))
  = Some [("Authorization"%string, "Bearer undefined"%string)].
Proof.
  exact (f_equal Some
           (proj1 (authorization_without_t (store := blank_token_store)
                     (backend := silent_backend) tt [("n"%string, JStr "admin")]
                     eq_refl eq_refl)
                  "get"%string "users"%string JUndefined JUndefined _ eq_refl)).
Defined.
